(** * Question-generator handler: skills cleaning, output post-processing
      and the request pipeline of [handlers/question-generator/app.py]

    Python [str] values are sequences of Unicode code points; they are
    modelled as lists of code points ([N]).  The Python string methods the
    handler uses ([strip], [lstrip(chars)], [split(sep)], [replace],
    [join]) are written out as executable functions on such lists. *)

From Stdlib Require Import List NArith ZArith Bool String Ascii Lia.
From Stdlib Require Import Floats.SpecFloat.
Import ListNotations.

Set Warnings "-register-all".

Open Scope string_scope.
Open Scope list_scope.

(* ================================================================== *)
(** ** Python strings *)
(* ================================================================== *)

Module PyStr.

Definition char := N.
Definition pystr := list char.

(** ASCII literal to code points. *)
Definition of_string (s : string) : pystr :=
  map N_of_ascii (list_ascii_of_string s).

Definition nonempty (s : pystr) : bool :=
  match s with [] => false | _ :: _ => true end.

(** [str.isspace] for one code point, the set CPython's [str.strip()]
    removes (Unicode White_Space plus the four ASCII separators 0x1C-0x1F). *)
Definition py_isspace (c : char) : bool :=
  (existsb (N.eqb c)
     [9; 10; 11; 12; 13; 28; 29; 30; 31; 32; 133; 160; 5760;
      8232; 8233; 8239; 8287; 12288]
   || ((8192 <=? c) && (c <=? 8202)))%N.

Fixpoint drop_while (p : char -> bool) (s : pystr) : pystr :=
  match s with
  | [] => []
  | c :: s' => if p c then drop_while p s' else s
  end.

(** [s.lstrip()], [s.rstrip()], [s.strip()] (whitespace). *)
Definition py_lstrip (s : pystr) : pystr := drop_while py_isspace s.
Definition py_rstrip (s : pystr) : pystr := rev (drop_while py_isspace (rev s)).
Definition py_strip (s : pystr) : pystr := py_rstrip (py_lstrip s).

(** [s.lstrip(chars)]: drop leading code points that belong to [chars]. *)
Definition py_lstrip_chars (chars s : pystr) : pystr :=
  drop_while (fun c => existsb (N.eqb c) chars) s.

(** [s.split(sep)] for a one-character separator, the only form the
    handler uses.  The result is never empty. *)
Fixpoint py_split (sep : char) (s : pystr) : list pystr :=
  match s with
  | [] => [[]]
  | c :: s' =>
      if (c =? sep)%N then [] :: py_split sep s'
      else match py_split sep s' with
           | p :: ps => (c :: p) :: ps
           | [] => [[c]]
           end
  end.

(** [sep.join(l)]. *)
Fixpoint py_join (sep : pystr) (l : list pystr) : pystr :=
  match l with
  | [] => []
  | x :: rest =>
      match rest with
      | [] => x
      | _ :: _ => x ++ sep ++ py_join sep rest
      end
  end.

Fixpoint starts_with (p s : pystr) : bool :=
  match p, s with
  | [], _ => true
  | _ :: _, [] => false
  | a :: p', b :: s' => (a =? b)%N && starts_with p' s'
  end.

(** Does [p] occur somewhere in [s]? *)
Fixpoint occurs (p s : pystr) : bool :=
  starts_with p s ||
  match s with
  | [] => false
  | _ :: s' => occurs p s'
  end.

(** [s.replace(old, new)] for a non-empty [old]: occurrences are found
    left to right and do not overlap.  [skip] counts the code points of
    the occurrence just replaced that are still to be passed over. *)
Fixpoint replace_from (old new : pystr) (skip : nat) (s : pystr) : pystr :=
  match s with
  | [] => []
  | c :: s' =>
      match skip with
      | S k => replace_from old new k s'
      | O =>
          if starts_with old s
          then new ++ replace_from old new (List.length old - 1) s'
          else c :: replace_from old new 0 s'
      end
  end.

Definition py_replace (old new s : pystr) : pystr := replace_from old new 0 s.

End PyStr.

Import PyStr.

(* ================================================================== *)
(** ** [clean_skills] *)
(* ================================================================== *)

Definition comma : char := Eval cbv in N_of_ascii ","%char.
Definition colon : char := Eval cbv in N_of_ascii ":"%char.
Definition space : char := Eval cbv in N_of_ascii " "%char.
Definition newline : char := 10%N.

(** The literal ['SKILLS:']. *)
Definition skills_marker : pystr := Eval cbv in of_string "SKILLS:".

(** [def clean_skills(skills_list)], on a list of strings.  The two nested
    [for] loops append to [cleaned_skills]; [part.strip().split(':')[-1]]
    indexes a list that [split] never leaves empty, so [last _ []] is its
    last element. *)
Definition clean_skills (skills_list : list pystr) : list pystr :=
  fold_left
    (fun cleaned_skills skill =>
       let parts := py_split comma (py_replace skills_marker [] skill) in
       fold_left
         (fun cleaned part =>
            let cleaned_skill :=
              py_strip (last (py_split colon (py_strip part)) []) in
            if nonempty cleaned_skill then cleaned ++ [cleaned_skill]
            else cleaned)
         parts cleaned_skills)
    skills_list [].

(** The algorithm as the specification words it: strip a leading marker,
    split on [','], keep the trimmed last colon-delimited segment of each
    piece, drop the empty ones, flatten.  [clean_skills_with] leaves open
    how the marker is taken off an entry. *)
Definition strip_leading_marker (raw : pystr) : pystr :=
  if starts_with skills_marker raw then skipn (List.length skills_marker) raw
  else raw.

Definition last_segment (piece : pystr) : pystr :=
  last (py_split colon piece) [].

Definition clean_skills_with (unmark : pystr -> pystr) (raws : list pystr)
  : list pystr :=
  flat_map
    (fun raw =>
       filter nonempty
         (map (fun piece => py_strip (last_segment piece))
              (py_split comma (unmark raw))))
    raws.

Definition clean_skills_spec (raws : list pystr) : list pystr :=
  clean_skills_with strip_leading_marker raws.

(** Does the marker occur in [raw] in leading position only? *)
Definition marker_only_leading (raw : pystr) : bool :=
  negb (occurs skills_marker (strip_leading_marker raw)).

(** What one raw entry contributes to [clean_skills], without the loops. *)
Definition cleaned_of (skill : pystr) : list pystr :=
  filter nonempty
    (map (fun part => py_strip (last_segment (py_strip part)))
         (py_split comma (py_replace skills_marker [] skill))).

(** A raw entry of the shape ["SKILLS: a: x, b: y"]. *)
Definition labelled_pair (a x b y : pystr) : pystr :=
  skills_marker ++ space :: a ++ colon :: space :: x
                ++ comma :: space :: b ++ colon :: space :: y.

(* ================================================================== *)
(** ** Post-processing of the model output *)
(* ================================================================== *)

(** The argument of [lstrip] in the handler, code point by code point:
    ['0123456789.)-'], then the three non-ASCII code points the source
    file holds (U+201A, U+00F3, U+00E8), then a space. *)
Definition ascii_markers : pystr := Eval cbv in of_string "0123456789.)-".
Definition glyph_chars : pystr := [8218; 243; 232]%N.
Definition marker_chars : pystr := ascii_markers ++ glyph_chars ++ [space].

(** [[q.strip().lstrip(...) for q in result.strip().split('\n') if q.strip()]] *)
Definition postprocess (result : pystr) : list pystr :=
  map (fun q => py_lstrip_chars marker_chars (py_strip q))
      (filter (fun q => nonempty (py_strip q))
              (py_split newline (py_strip result))).


(** The non-blank lines of a text, each trimmed. *)
Definition trimmed_lines (text : pystr) : list pystr :=
  map py_strip
      (filter (fun q => nonempty (py_strip q)) (py_split newline text)).

Definition example_output : pystr :=
  Eval cbv in
    of_string "1. What is X?" ++ [10%N] ++ of_string "2) Explain Y"
      ++ [10%N] ++ of_string "- Describe Z".

(* ================================================================== *)
(** ** Python values, exceptions and the outside world *)
(* ================================================================== *)

Module Py.

(** Values the handler meets: what [json.loads] builds.  A [dict] keeps
    its insertion order; [dict.get] finds a key's binding. *)
Inductive pyval : Type :=
| PNone
| PBool (b : bool)
| PInt (z : Z)
| PFloat (f : spec_float)
| PStr (s : pystr)
| PList (l : list pyval)
| PDict (d : list (pystr * pyval)).

Definition type_name (v : pyval) : pystr :=
  match v with
  | PNone => of_string "NoneType"
  | PBool _ => of_string "bool"
  | PInt _ => of_string "int"
  | PFloat _ => of_string "float"
  | PStr _ => of_string "str"
  | PList _ => of_string "list"
  | PDict _ => of_string "dict"
  end.

(** Truth value, as [not v] tests it. *)
Definition truthy (v : pyval) : bool :=
  match v with
  | PNone => false
  | PBool b => b
  | PInt z => negb (z =? 0)%Z
  | PFloat (S754_zero _) => false
  | PFloat _ => true
  | PStr s => nonempty s
  | PList l => match l with [] => false | _ :: _ => true end
  | PDict d => match d with [] => false | _ :: _ => true end
  end.

(** An exception instance: its class and what [str(e)] gives.  Only
    instances of [Exception] are modelled, the ones [except Exception]
    catches. *)
Record exn : Type := Exn { exn_class : pystr; exn_str : pystr }.

Definition result (A : Type) : Type := (exn + A)%type.

Definition quoted (s : pystr) : pystr := of_string "'" ++ s ++ of_string "'".

Definition AttributeError (v : pyval) (attr : pystr) : exn :=
  Exn (of_string "AttributeError")
      (quoted (type_name v) ++ of_string " object has no attribute " ++ quoted attr).

Definition NotIterable (v : pyval) : exn :=
  Exn (of_string "TypeError")
      (quoted (type_name v) ++ of_string " object is not iterable").

Definition KeyError (key : pystr) : exn :=
  Exn (of_string "KeyError") (quoted key).

Fixpoint pystr_eqb (a b : pystr) : bool :=
  match a, b with
  | [], [] => true
  | x :: a', y :: b' => (x =? y)%N && pystr_eqb a' b'
  | _, _ => false
  end.

Fixpoint assoc {A : Type} (key : pystr) (d : list (pystr * A)) : option A :=
  match d with
  | [] => None
  | (k, v) :: d' => if pystr_eqb k key then Some v else assoc key d'
  end.

(** [v.get(key, default)]: only a [dict] has the method. *)
Definition py_get (v : pyval) (key : pystr) (default : pyval) : result pyval :=
  match v with
  | PDict d =>
      inr (match assoc key d with Some x => x | None => default end)
  | _ => inl (AttributeError v (of_string "get"))
  end.

(** The external services and library calls, as one record: what each
    returns or raises.  [json_dumps] and [py_repr] are total on the values
    the handler passes them. *)
Record world : Type := World {
  json_loads : pystr -> result pyval;          (* json.loads(str) *)
  json_dumps : pyval -> pystr;                 (* json.dumps(obj) *)
  py_repr : pyval -> pystr;                    (* str(v) of a non-str value *)
  environ : pystr -> option pystr;             (* os.environ *)
  boto3_client : pystr -> option pystr -> result unit;
  s3_get_object : pystr -> pystr -> result (list Byte.byte);
                                   (* get_object(...)['Body'].read() *)
  decode_utf8 : list Byte.byte -> result pystr;
  Bedrock : pystr -> result unit;              (* Bedrock(client, model_id) *)
  PromptTemplate : list pystr -> pystr -> result unit;
  LLMChain : result unit;
  chain_run : pystr -> pyval -> result pystr   (* chain.run({...}) *)
}.

(** The two service calls the handler makes, recorded in call order. *)
Inductive call : Type :=
| S3GetObject (bucket key : pystr)
| ChainRun (skills : pystr) (projects : pyval).

(** Computations that may raise and that record the service calls made. *)
Definition M (A : Type) : Type := list call -> result A * list call.

Definition ret {A : Type} (a : A) : M A := fun t => (inr a, t).

Definition bind {A B : Type} (m : M A) (k : A -> M B) : M B :=
  fun t =>
    match m t with
    | (inl e, t') => (inl e, t')
    | (inr a, t') => k a t'
    end.

(** A library call with no recorded effect: its result or its exception. *)
Definition lift {A : Type} (r : result A) : M A := fun t => (r, t).

(** A service call: recorded, then its result or its exception. *)
Definition invoke {A : Type} (c : call) (r : result A) : M A :=
  fun t => (r, t ++ [c]).

(** [try: m  except Exception as e: ...] with the handler left to the
    caller: the exception, if any, is handed back as a value. *)
Definition attempt {A : Type} (m : M A) : M (result A) :=
  fun t =>
    match m t with
    | (inl e, t') => (inr (inl e), t')
    | (inr a, t') => (inr (inr a), t')
    end.

End Py.

Import Py.

Notation "x <- m ;; k" := (bind m (fun x => k))
  (at level 61, m at next level, right associativity).

(* ================================================================== *)
(** ** [lambda_handler] *)
(* ================================================================== *)

Record response : Type := Response {
  statusCode : Z;
  body : pystr;
  headers : list (pystr * pystr)
}.

Definition model_id : pystr := of_string "mistral.mixtral-8x7b-instruct-v0:1".

Definition prompt_template : pystr := of_string "
        Given a candidate with the following background:
        
        Skills: {skills}
        Projects: {projects}
        
        Generate 10 technical interview questions that:
        1. Focus primarily on assessing the listed skills
        2. Include practical scenarios based on their project experience
        3. Test both theoretical knowledge and practical application
        4. Are challenging but appropriate for their experience level
        
        Provide only the questions as a numbered list, without any additional text.
        ".

(** [json.loads(x)]: anything but a [str] is refused before parsing (the
    event holds no [bytes]). *)
Definition py_json_loads (w : world) (x : pyval) : result pyval :=
  match x with
  | PStr s => json_loads w s
  | _ =>
      inl (Exn (of_string "TypeError")
               (of_string "the JSON object must be str, bytes or bytearray, not "
                  ++ type_name x))
  end.

(** [str(v)] inside an f-string. *)
Definition py_str (w : world) (v : pyval) : pystr :=
  match v with
  | PStr s => s
  | _ => py_repr w v
  end.

(** The elements [skill.replace] is called on, or the [AttributeError] of
    the first one that is not a [str]. *)
Fixpoint as_strings (l : list pyval) : result (list pystr) :=
  match l with
  | [] => inr []
  | PStr s :: l' =>
      match as_strings l' with
      | inl e => inl e
      | inr ss => inr (s :: ss)
      end
  | v :: _ => inl (AttributeError v (of_string "replace"))
  end.

(** [clean_skills(raw_skills)] on whatever value the parsed record holds:
    a list is iterated by element, a [str] by character, a [dict] by key;
    other values are not iterable.  An exception raised part of the way
    leaves nothing behind, the list being local. *)
Definition py_clean_skills (raw_skills : pyval) : result (list pystr) :=
  match raw_skills with
  | PList l =>
      match as_strings l with
      | inl e => inl e
      | inr ss => inr (clean_skills ss)
      end
  | PStr s => inr (clean_skills (map (fun c => [c]) s))
  | PDict d => inr (clean_skills (map fst d))
  | _ => inl (NotIterable raw_skills)
  end.

Definition file_key (w : world) (user_id : pyval) : pystr :=
  of_string "generated/" ++ py_str w user_id ++ of_string "_parsed.json".

Section Handler.

Variable w : world.

(** The body of the inner [try]. *)
Definition fetch_parsed_data (bucket_name : pystr) (user_id : pyval) : M pyval :=
  let file_key := file_key w user_id in
  data <- invoke (S3GetObject bucket_name file_key)
                 (s3_get_object w bucket_name file_key) ;;
  text <- lift (decode_utf8 w data) ;;
  lift (json_loads w text).

(** What the inner [try] gives, as a function of the world. *)
Definition fetch_outcome (bucket_name : pystr) (user_id : pyval) : result pyval :=
  match s3_get_object w bucket_name (file_key w user_id) with
  | inl e => inl e
  | inr data =>
      match decode_utf8 w data with
      | inl e => inl e
      | inr text => json_loads w text
      end
  end.

(** The outer [try] from [raw_skills = ...] to the final [return], that
    is, what follows the storage fetch. *)
Definition generate_questions (parsed_data : pyval) : M response :=
  raw_skills <- lift (py_get parsed_data (of_string "skills") (PList [])) ;;
  skills <- lift (py_clean_skills raw_skills) ;;
  match skills with
  | [] =>
      ret {| statusCode := 400;
             body := json_dumps w
               (PDict [(of_string "error",
                        PStr (of_string "No skills found in parsed data"))]);
             headers :=
               [(of_string "Access-Control-Allow-Origin", of_string "*");
                (of_string "Content-Type", of_string "application/json")] |}
  | _ :: _ =>
      _ <- lift (boto3_client w (of_string "bedrock-runtime")
                              (Some (of_string "ap-south-1"))) ;;
      _ <- lift (Bedrock w model_id) ;;
      let skills_str := py_join (of_string ", ") skills in
      projects_str <- lift (py_get parsed_data (of_string "projects")
                                   (PStr [])) ;;
      _ <- lift (PromptTemplate w [of_string "skills"; of_string "projects"]
                                prompt_template) ;;
      _ <- lift (LLMChain w) ;;
      result <- invoke (ChainRun skills_str projects_str)
                       (chain_run w skills_str projects_str) ;;
      let questions := postprocess result in
      ret {| statusCode := 200;
             body := json_dumps w
               (PDict [(of_string "questions", PList (map PStr questions));
                       (of_string "skills_used", PList (map PStr skills))]);
             headers :=
               [(of_string "Access-Control-Allow-Origin", of_string "*");
                (of_string "Content-Type", of_string "application/json")] |}
  end.

(** The body of the outer [try], up to the storage fetch and its
    [except]; [generate_questions] is the rest. *)
Definition handler_body (event : pyval) : M response :=
  raw_body <- lift (py_get event (of_string "body") (PStr (of_string "{}"))) ;;
  body <- lift (py_json_loads w raw_body) ;;
  user_id <- lift (py_get body (of_string "userId") PNone) ;;
  if negb (truthy user_id) then
    ret {| statusCode := 400;
           body := json_dumps w
             (PDict [(of_string "error", PStr (of_string "userId is required"))]);
           headers :=
             [(of_string "Access-Control-Allow-Origin", of_string "*");
              (of_string "Content-Type", of_string "application/json")] |}
  else
    _ <- lift (boto3_client w (of_string "s3") None) ;;
    bucket_name <-
      lift (match environ w (of_string "BUCKET_NAME") with
            | Some b => inr b
            | None => inl (KeyError (of_string "BUCKET_NAME"))
            end) ;;
    fetched <- attempt (fetch_parsed_data bucket_name user_id) ;;
    match fetched with
    | inl e =>
        ret {| statusCode := 404;
               body := json_dumps w
                 (PDict [(of_string "error",
                          PStr (of_string "Failed to retrieve parsed data: "
                                  ++ exn_str e))]);
               headers :=
                 [(of_string "Access-Control-Allow-Origin", of_string "*");
                  (of_string "Content-Type", of_string "application/json")] |}
    | inr parsed_data => generate_questions parsed_data
    end.

(** [def lambda_handler(event, context)]: the outer [try] and its
    [except Exception as e]. *)
Definition lambda_handler (event : pyval) : M response :=
  outcome <- attempt (handler_body event) ;;
  match outcome with
  | inr resp => ret resp
  | inl e =>
      ret {| statusCode := 500;
             body := json_dumps w
               (PDict [(of_string "error",
                        PStr (of_string "Internal server error: " ++ exn_str e))]);
             headers :=
               [(of_string "Access-Control-Allow-Origin", of_string "*");
                (of_string "Content-Type", of_string "application/json")] |}
  end.

End Handler.

(* ================================================================== *)
(** ** Vocabulary of the statements *)
(* ================================================================== *)

Definition cors_headers : list (pystr * pystr) :=
  [(of_string "Access-Control-Allow-Origin", of_string "*");
   (of_string "Content-Type", of_string "application/json")].

(** The response [{statusCode, body: json.dumps({'error': msg}), headers}]. *)
Definition error_response (w : world) (status : Z) (msg : pystr) : response :=
  {| statusCode := status;
     body := json_dumps w (PDict [(of_string "error", PStr msg)]);
     headers := cors_headers |}.

(** The 200 response for the given questions and skills. *)
Definition success_response (w : world) (questions skills : list pystr)
  : response :=
  {| statusCode := 200;
     body := json_dumps w
       (PDict [(of_string "questions", PList (map PStr questions));
               (of_string "skills_used", PList (map PStr skills))]);
     headers := cors_headers |}.

(** The response envelope: a status code of the table, a body produced by
    [json.dumps], and the two headers. *)
Definition envelope_ok (w : world) (resp : response) : Prop :=
  In (statusCode resp) [200; 400; 404; 500]%Z
  /\ (exists v, body resp = json_dumps w v)
  /\ assoc (of_string "Access-Control-Allow-Origin") (headers resp)
     = Some (of_string "*")
  /\ assoc (of_string "Content-Type") (headers resp)
     = Some (of_string "application/json").

(** The request carries a truthy [userId], the storage client is built and
    the bucket name is configured: the handler gets to its storage fetch. *)
Inductive reaches_fetch (w : world) (event : pyval)
          (bucket_name : pystr) (user_id : pyval) : Prop :=
| ReachesFetch (raw_body body : pyval) :
    py_get event (of_string "body") (PStr (of_string "{}")) = inr raw_body ->
    py_json_loads w raw_body = inr body ->
    py_get body (of_string "userId") PNone = inr user_id ->
    truthy user_id = true ->
    boto3_client w (of_string "s3") None = inr tt ->
    environ w (of_string "BUCKET_NAME") = Some bucket_name ->
    reaches_fetch w event bucket_name user_id.

(** An exception raised after the fetch and before the model is called:
    while the skills are read and cleaned, or while the Bedrock client,
    the LLM, the prompt template or the chain is built.  Each case lists
    the calls that succeeded before the one that raises [e]. *)
Inductive raises_before_model (w : world) (parsed_data : pyval) (e : exn)
  : Prop :=
| RaisedReadingSkills :
    py_get parsed_data (of_string "skills") (PList []) = inl e ->
    raises_before_model w parsed_data e
| RaisedCleaning (raw_skills : pyval) :
    py_get parsed_data (of_string "skills") (PList []) = inr raw_skills ->
    py_clean_skills raw_skills = inl e ->
    raises_before_model w parsed_data e
| RaisedBedrockClient (raw_skills : pyval) (skills : list pystr) :
    py_get parsed_data (of_string "skills") (PList []) = inr raw_skills ->
    py_clean_skills raw_skills = inr skills ->
    skills <> [] ->
    boto3_client w (of_string "bedrock-runtime") (Some (of_string "ap-south-1"))
    = inl e ->
    raises_before_model w parsed_data e
| RaisedBedrock (raw_skills : pyval) (skills : list pystr) :
    py_get parsed_data (of_string "skills") (PList []) = inr raw_skills ->
    py_clean_skills raw_skills = inr skills ->
    skills <> [] ->
    boto3_client w (of_string "bedrock-runtime") (Some (of_string "ap-south-1"))
    = inr tt ->
    Bedrock w model_id = inl e ->
    raises_before_model w parsed_data e
| RaisedPromptTemplate (raw_skills : pyval) (skills : list pystr) :
    py_get parsed_data (of_string "skills") (PList []) = inr raw_skills ->
    py_clean_skills raw_skills = inr skills ->
    skills <> [] ->
    boto3_client w (of_string "bedrock-runtime") (Some (of_string "ap-south-1"))
    = inr tt ->
    Bedrock w model_id = inr tt ->
    PromptTemplate w [of_string "skills"; of_string "projects"] prompt_template
    = inl e ->
    raises_before_model w parsed_data e
| RaisedLLMChain (raw_skills : pyval) (skills : list pystr) :
    py_get parsed_data (of_string "skills") (PList []) = inr raw_skills ->
    py_clean_skills raw_skills = inr skills ->
    skills <> [] ->
    boto3_client w (of_string "bedrock-runtime") (Some (of_string "ap-south-1"))
    = inr tt ->
    Bedrock w model_id = inr tt ->
    PromptTemplate w [of_string "skills"; of_string "projects"] prompt_template
    = inr tt ->
    LLMChain w = inl e ->
    raises_before_model w parsed_data e.

(** The handler gets to [chain.run] with the cleaned, non-empty [skills]
    of the record and its [projects] value: everything before the call
    succeeded. *)
Inductive model_called (w : world) (parsed_data : pyval)
          (skills : list pystr) (projects : pyval) : Prop :=
| ModelCalled (raw_skills : pyval) :
    py_get parsed_data (of_string "skills") (PList []) = inr raw_skills ->
    py_clean_skills raw_skills = inr skills ->
    skills <> [] ->
    boto3_client w (of_string "bedrock-runtime") (Some (of_string "ap-south-1"))
    = inr tt ->
    Bedrock w model_id = inr tt ->
    py_get parsed_data (of_string "projects") (PStr []) = inr projects ->
    PromptTemplate w [of_string "skills"; of_string "projects"] prompt_template
    = inr tt ->
    LLMChain w = inr tt ->
    model_called w parsed_data skills projects.

(** What [generate_questions] can end in, and the calls it adds. *)
Inductive generation (w : world) (parsed_data : pyval) (t : list call)
  : result response -> list call -> Prop :=
| GenRaisedEarly (e : exn) :
    raises_before_model w parsed_data e ->
    generation w parsed_data t (inl e) t
| GenNoSkills (raw_skills : pyval) :
    py_get parsed_data (of_string "skills") (PList []) = inr raw_skills ->
    py_clean_skills raw_skills = inr [] ->
    generation w parsed_data t
      (inr (error_response w 400 (of_string "No skills found in parsed data"))) t
| GenModelRaised (skills : list pystr) (projects : pyval) (e : exn) :
    model_called w parsed_data skills projects ->
    chain_run w (py_join (of_string ", ") skills) projects = inl e ->
    generation w parsed_data t (inl e)
      (t ++ [ChainRun (py_join (of_string ", ") skills) projects])
| GenAnswered (skills : list pystr) (projects : pyval) (output : pystr) :
    model_called w parsed_data skills projects ->
    chain_run w (py_join (of_string ", ") skills) projects = inr output ->
    generation w parsed_data t
      (inr (success_response w (postprocess output) skills))
      (t ++ [ChainRun (py_join (of_string ", ") skills) projects]).

(** Every way a run of [lambda_handler] can end. *)
Inductive handler_run (w : world) (event : pyval) (t : list call)
  : response -> list call -> Prop :=
| RunRaisedBeforeFetch (e : exn) :
    handler_body w event t = (inl e, t) ->
    handler_run w event t
      (error_response w 500 (of_string "Internal server error: " ++ exn_str e)) t
| RunNoUserId (raw_body body user_id : pyval) :
    py_get event (of_string "body") (PStr (of_string "{}")) = inr raw_body ->
    py_json_loads w raw_body = inr body ->
    py_get body (of_string "userId") PNone = inr user_id ->
    truthy user_id = false ->
    handler_run w event t
      (error_response w 400 (of_string "userId is required")) t
| RunFetchFailed (bucket_name : pystr) (user_id : pyval) (e : exn) :
    reaches_fetch w event bucket_name user_id ->
    fetch_outcome w bucket_name user_id = inl e ->
    handler_run w event t
      (error_response w 404
         (of_string "Failed to retrieve parsed data: " ++ exn_str e))
      (t ++ [S3GetObject bucket_name (file_key w user_id)])
| RunRaisedAfterFetch (bucket_name : pystr) (user_id parsed_data : pyval)
                      (e : exn) (t' : list call) :
    reaches_fetch w event bucket_name user_id ->
    fetch_outcome w bucket_name user_id = inr parsed_data ->
    generation w parsed_data
      (t ++ [S3GetObject bucket_name (file_key w user_id)]) (inl e) t' ->
    handler_run w event t
      (error_response w 500 (of_string "Internal server error: " ++ exn_str e)) t'
| RunGenerated (bucket_name : pystr) (user_id parsed_data : pyval)
               (resp : response) (t' : list call) :
    reaches_fetch w event bucket_name user_id ->
    fetch_outcome w bucket_name user_id = inr parsed_data ->
    generation w parsed_data
      (t ++ [S3GetObject bucket_name (file_key w user_id)]) (inr resp) t' ->
    handler_run w event t resp t'.

(** A toy world for the examples: [json.loads] knows four texts, the
    bucket holds one record, and the model answers with a fixed list.
    JSON texts are written with ['] for the double quote. *)
Definition json_text (s : string) : pystr :=
  map (fun c => if (c =? 39)%N then 34%N else c) (of_string s).

Definition demo_loads (s : pystr) : result pyval :=
  if pystr_eqb s (json_text "{}") then inr (PDict [])
  else if pystr_eqb s (json_text "{'userId': 'u1'}")
  then inr (PDict [(of_string "userId", PStr (of_string "u1"))])
  else if pystr_eqb s (json_text "{'skills': ['SKILLS: a: x, b: y']}")
  then inr (PDict [(of_string "skills",
                    PList [PStr (of_string "SKILLS: a: x, b: y")])])
  else if pystr_eqb s (json_text "{'skills': [' ']}")
  then inr (PDict [(of_string "skills", PList [PStr (of_string " ")])])
  else inl (Exn (of_string "JSONDecodeError")
                (of_string "Expecting value: line 1 column 1 (char 0)")).

(** A serializer good enough for values built from strings. *)
Fixpoint demo_dumps (v : pyval) : pystr :=
  match v with
  | PStr s => 34%N :: s ++ [34%N]
  | PList l =>
      of_string "["
      ++ py_join (of_string ", ") (map demo_dumps l)
      ++ of_string "]"
  | PDict d =>
      of_string "{"
      ++ py_join (of_string ", ")
           (map (fun kv => 34%N :: fst kv ++ 34%N :: of_string ": "
                             ++ demo_dumps (snd kv)) d)
      ++ of_string "}"
  | _ => of_string "null"
  end.

Definition bytes_of (s : string) : list Byte.byte :=
  map (fun b => if Byte.eqb b Byte.x27 then Byte.x22 else b)
      (list_byte_of_string s).

Fixpoint demo_decode (data : list Byte.byte) : pystr :=
  match data with
  | [] => []
  | b :: data' => N_of_ascii (ascii_of_byte b) :: demo_decode data'
  end.

Definition demo_world (bucket : option pystr) (stored : result (list Byte.byte))
           (answer : result pystr) : world :=
  {| json_loads := demo_loads;
     json_dumps := demo_dumps;
     py_repr := fun _ => [];
     environ := fun k =>
       if pystr_eqb k (of_string "BUCKET_NAME") then bucket else None;
     boto3_client := fun _ _ => inr tt;
     s3_get_object := fun _ _ => stored;
     decode_utf8 := fun data => inr (demo_decode data);
     Bedrock := fun _ => inr tt;
     PromptTemplate := fun _ _ => inr tt;
     LLMChain := inr tt;
     chain_run := fun _ _ => answer |}.

Definition demo_event : pyval :=
  PDict [(of_string "body", PStr (json_text "{'userId': 'u1'}"))].

Definition NoSuchKey : exn :=
  Exn (of_string "NoSuchKey") (of_string "The specified key does not exist.").

Definition ModelDown : exn :=
  Exn (of_string "ValueError") (of_string "Error raised by bedrock service").

(** No bucket configured. *)
Definition world_no_bucket : world :=
  demo_world None (inl NoSuchKey) (inl ModelDown).

(** The record of the user is missing. *)
Definition world_missing_record : world :=
  demo_world (Some (of_string "resumes")) (inl NoSuchKey) (inl ModelDown).

(** The record of the user lists one blank skill. *)
Definition world_blank_skills : world :=
  demo_world (Some (of_string "resumes"))
             (inr (bytes_of "{'skills': [' ']}")) (inl ModelDown).

(** The record lists two skills and the model answers. *)
Definition world_answers : world :=
  demo_world (Some (of_string "resumes"))
             (inr (bytes_of "{'skills': ['SKILLS: a: x, b: y']}"))
             (inr example_output).

(** The record lists two skills and the model call fails. *)
Definition world_model_down : world :=
  demo_world (Some (of_string "resumes"))
             (inr (bytes_of "{'skills': ['SKILLS: a: x, b: y']}"))
             (inl ModelDown).

Definition demo_key : pystr := of_string "generated/u1_parsed.json".

Definition demo_pair : list pystr :=
  [labelled_pair (of_string "Languages") (of_string "Python")
                 (of_string "Tools") (of_string "Git")].


(* ================================================================== *)
(** ** Vocabulary of the further properties *)
(* ================================================================== *)

(** A cleaned skill: not empty, trimmed, free of [','] and [':']. *)
Definition clean_token (q : pystr) : Prop :=
  q <> [] /\ py_strip q = q /\ ~ In comma q /\ ~ In colon q.

(** The inner loop of [clean_skills] on a string whose markers are
    already gone. *)
Definition segments_of (s : pystr) : list pystr :=
  filter nonempty
    (map (fun part => py_strip (last_segment (py_strip part)))
         (py_split comma s)).

(** The characters of a string that become one-letter skills when
    [clean_skills] is handed the string in place of a list. *)
Definition letter_kept (c : char) : bool :=
  negb (py_isspace c || (c =? comma)%N || (c =? colon)%N).

(** The value [parsed_data.get(key, default)] of a record's bindings. *)
Definition field (d : list (pystr * pyval)) (key : pystr) (default : pyval)
  : pyval :=
  match assoc key d with Some v => v | None => default end.

(** The 500 answer of the catch-all for an exception [e]. *)
Definition internal_error (w : world) (e : exn) : response :=
  error_response w 500 (of_string "Internal server error: " ++ exn_str e).

(** [demo_world] with one more text that [json.loads] knows. *)
Definition demo_world_with (text : pystr) (value : pyval)
           (stored : result (list Byte.byte)) (answer : result pystr) : world :=
  {| json_loads := fun s =>
       if pystr_eqb s text then inr value else demo_loads s;
     json_dumps := demo_dumps;
     py_repr := fun _ => [];
     environ := fun k =>
       if pystr_eqb k (of_string "BUCKET_NAME")
       then Some (of_string "resumes") else None;
     boto3_client := fun _ _ => inr tt;
     s3_get_object := fun _ _ => stored;
     decode_utf8 := fun data => inr (demo_decode data);
     Bedrock := fun _ => inr tt;
     PromptTemplate := fun _ _ => inr tt;
     LLMChain := inr tt;
     chain_run := fun _ _ => answer |}.

(** The record holds a skills list whose second entry is a number. *)
Definition world_number_skill : world :=
  demo_world_with
    (json_text "{'skills': ['Go', 3]}")
    (PDict [(of_string "skills", PList [PStr (of_string "Go"); PInt 3])])
    (inr (bytes_of "{'skills': ['Go', 3]}")) (inl ModelDown).

(** The record is the empty object. *)
Definition world_empty_record : world :=
  demo_world (Some (of_string "resumes")) (inr (bytes_of "{}")) (inl ModelDown).

(** The record is an empty list. *)
Definition world_list_record : world :=
  demo_world_with (json_text "[]") (PList [])
                  (inr (bytes_of "[]")) (inl ModelDown).

(** The request body is [{"userId": 0}]. *)
Definition world_zero_user : world :=
  demo_world_with (json_text "{'userId': 0}")
                  (PDict [(of_string "userId", PInt 0)])
                  (inl NoSuchKey) (inl ModelDown).

(** The record lists a skill and a project; the model answers. *)
Definition world_projects : world :=
  demo_world_with
    (json_text "{'skills': ['Go'], 'projects': 'a compiler'}")
    (PDict [(of_string "skills", PList [PStr (of_string "Go")]);
            (of_string "projects", PStr (of_string "a compiler"))])
    (inr (bytes_of "{'skills': ['Go'], 'projects': 'a compiler'}"))
    (inr example_output).


(** The record lists two skills and the prompt template is refused. *)
Definition TemplateRefused : exn :=
  Exn (of_string "ValidationError") (of_string "Invalid prompt schema").

Definition world_template_refused : world :=
  {| json_loads := demo_loads;
     json_dumps := demo_dumps;
     py_repr := fun _ => [];
     environ := fun k =>
       if pystr_eqb k (of_string "BUCKET_NAME")
       then Some (of_string "resumes") else None;
     boto3_client := fun _ _ => inr tt;
     s3_get_object := fun _ _ =>
       inr (bytes_of "{'skills': ['SKILLS: a: x, b: y']}");
     decode_utf8 := fun data => inr (demo_decode data);
     Bedrock := fun _ => inr tt;
     PromptTemplate := fun _ _ => inl TemplateRefused;
     LLMChain := inr tt;
     chain_run := fun _ _ => inr example_output |}.

Definition demo_record : pyval :=
  PDict [(of_string "skills", PList [PStr (of_string "SKILLS: a: x, b: y")])].

(** Unfolds the monad. *)
Ltac run :=
  unfold bind, lift, ret, attempt, invoke in *; cbv beta iota in *.

(* ================================================================== *)
(** ** Facts about the string functions *)
(* ================================================================== *)

Section DropWhile.

Variable p : char -> bool.

Lemma drop_while_app_stop (u v : pystr) (c : char) :
  p c = false -> drop_while p (u ++ c :: v) = drop_while p u ++ c :: v.
Proof.
  intros Hc. induction u as [|a u IH]; simpl.
  - now rewrite Hc.
  - destruct (p a); [exact IH | reflexivity].
Qed.

Lemma drop_while_snoc (l : pystr) (c : char) :
  drop_while p (l ++ [c]) =
  if nonempty (drop_while p l) then drop_while p l ++ [c]
  else if p c then [] else [c].
Proof.
  induction l as [|a l IH]; simpl.
  - destruct (p c); reflexivity.
  - destruct (p a); [exact IH | reflexivity].
Qed.

Lemma drop_while_idem (s : pystr) :
  drop_while p (drop_while p s) = drop_while p s.
Proof.
  induction s as [|a s IH]; simpl; [reflexivity|].
  destruct (p a) eqn:E; [exact IH | simpl; now rewrite E].
Qed.

Lemma drop_while_In (s : pystr) (c : char) :
  In c (drop_while p s) -> In c s.
Proof.
  induction s as [|a s IH]; simpl; [tauto|].
  destruct (p a); [right; auto | simpl; tauto].
Qed.

End DropWhile.


Lemma nonempty_rev (s : pystr) : nonempty (rev s) = nonempty s.
Proof.
  destruct s as [|a s]; [reflexivity|]. simpl.
  destruct (rev s); reflexivity.
Qed.

Lemma nonempty_false (s : pystr) : nonempty s = false -> s = [].
Proof. destruct s; [reflexivity | discriminate]. Qed.

Lemma nonempty_true (s : pystr) : nonempty s = true <-> s <> [].
Proof. destruct s; simpl; split; congruence. Qed.

(** *** Trimming *)

Lemma py_rstrip_cons (c : char) (s : pystr) :
  py_rstrip (c :: s) =
  if nonempty (py_rstrip s) then c :: py_rstrip s
  else if py_isspace c then [] else [c].
Proof.
  unfold py_rstrip. simpl rev. rewrite drop_while_snoc, nonempty_rev.
  destruct (nonempty (drop_while py_isspace (rev s))).
  - rewrite rev_app_distr. reflexivity.
  - destruct (py_isspace c); reflexivity.
Qed.

Lemma py_rstrip_snoc_space (s : pystr) (c : char) :
  py_isspace c = true -> py_rstrip (s ++ [c]) = py_rstrip s.
Proof.
  intros Hc. unfold py_rstrip. rewrite rev_app_distr. simpl. now rewrite Hc.
Qed.

Lemma py_rstrip_app_stop (u v : pystr) (c : char) :
  py_isspace c = false -> py_rstrip (u ++ c :: v) = u ++ c :: py_rstrip v.
Proof.
  intros Hc. unfold py_rstrip.
  rewrite rev_app_distr. simpl rev. rewrite <- app_assoc. simpl.
  rewrite drop_while_app_stop by exact Hc.
  rewrite rev_app_distr. simpl. rewrite rev_involutive, <- app_assoc. reflexivity.
Qed.

Lemma py_rstrip_idem (s : pystr) : py_rstrip (py_rstrip s) = py_rstrip s.
Proof.
  unfold py_rstrip. now rewrite rev_involutive, drop_while_idem.
Qed.

Lemma py_lstrip_idem (s : pystr) : py_lstrip (py_lstrip s) = py_lstrip s.
Proof. apply drop_while_idem. Qed.

Lemma py_strip_comm (s : pystr) :
  py_rstrip (py_lstrip s) = py_lstrip (py_rstrip s).
Proof.
  induction s as [|c s IH]; [reflexivity|].
  rewrite py_rstrip_cons. unfold py_lstrip at 1. simpl.
  destruct (py_isspace c) eqn:Hc.
  - fold (py_lstrip s). rewrite IH.
    destruct (nonempty (py_rstrip s)) eqn:Hn.
    + unfold py_lstrip. simpl. now rewrite Hc.
    + now rewrite (nonempty_false _ Hn).
  - rewrite py_rstrip_cons.
    destruct (nonempty (py_rstrip s)); unfold py_lstrip; simpl; now rewrite Hc.
Qed.

Lemma py_strip_idem (s : pystr) : py_strip (py_strip s) = py_strip s.
Proof.
  unfold py_strip.
  now rewrite <- (py_strip_comm (py_lstrip s)), py_lstrip_idem, py_rstrip_idem.
Qed.

Lemma py_strip_rstrip (s : pystr) : py_strip (py_rstrip s) = py_strip s.
Proof.
  unfold py_strip. now rewrite (py_strip_comm (py_rstrip s)), py_rstrip_idem,
    <- py_strip_comm.
Qed.

Lemma py_strip_cons_space (c : char) (s : pystr) :
  py_isspace c = true -> py_strip (c :: s) = py_strip s.
Proof. intros Hc. unfold py_strip, py_lstrip. simpl. now rewrite Hc. Qed.

Lemma py_strip_snoc_space (s : pystr) (c : char) :
  py_isspace c = true -> py_strip (s ++ [c]) = py_strip s.
Proof.
  intros Hc. unfold py_strip.
  now rewrite !py_strip_comm, py_rstrip_snoc_space.
Qed.

Lemma py_rstrip_In (s : pystr) (c : char) : In c (py_rstrip s) -> In c s.
Proof.
  unfold py_rstrip. intros H. apply in_rev in H.
  apply drop_while_In in H. now apply in_rev.
Qed.

Lemma py_strip_In (s : pystr) (c : char) : In c (py_strip s) -> In c s.
Proof.
  unfold py_strip, py_lstrip. intros H.
  apply py_rstrip_In in H. now apply drop_while_In in H.
Qed.

(** *** Splitting *)

Lemma py_split_nonempty (sep : char) (s : pystr) : py_split sep s <> [].
Proof.
  destruct s as [|c s]; simpl; [discriminate|].
  destruct (c =? sep)%N; [discriminate|].
  destruct (py_split sep s); discriminate.
Qed.

Lemma py_split_app (sep : char) (u v : pystr) :
  py_split sep (u ++ sep :: v) = py_split sep u ++ py_split sep v.
Proof.
  induction u as [|c u IH]; simpl.
  - now rewrite N.eqb_refl.
  - destruct (c =? sep)%N; rewrite IH; [reflexivity|].
    destruct (py_split sep u) as [|q qs] eqn:E; [|reflexivity].
    now destruct (py_split_nonempty _ _ E).
Qed.

Lemma py_split_no_sep (sep : char) (s : pystr) :
  ~ In sep s -> py_split sep s = [s].
Proof.
  induction s as [|c s IH]; simpl; intros H; [reflexivity|].
  destruct (N.eqb_spec c sep) as [->|_]; [tauto|].
  rewrite IH by tauto. reflexivity.
Qed.

Lemma py_split_In (sep : char) (s q : pystr) (c : char) :
  In q (py_split sep s) -> In c q -> In c s.
Proof.
  revert q. induction s as [|a s IH]; simpl; intros q Hq Hc.
  - destruct Hq as [<-|[]]. exact Hc.
  - destruct (a =? sep)%N.
    + destruct Hq as [<-|Hq]; [destruct Hc | right; eauto].
    + destruct (py_split sep s) as [|r rs].
      * destruct Hq as [<-|[]]. destruct Hc as [->|[]]. now left.
      * destruct Hq as [<-|Hq].
        -- destruct Hc as [->|Hc]; [now left | right; apply (IH r); simpl; auto].
        -- right. apply (IH q); simpl; auto.
Qed.

(** A string either has no separator or splits around its last one. *)
Lemma last_sep_cases (sep : char) (s : pystr) :
  ~ In sep s \/ exists u v, s = u ++ sep :: v /\ ~ In sep v.
Proof.
  induction s as [|c s IH]; [left; simpl; tauto|].
  destruct IH as [Hno | (u & v & -> & Hv)].
  - destruct (N.eqb_spec c sep) as [->|Hne].
    + right. exists [], s. auto.
    + left. simpl. intros [E|E]; [congruence | tauto].
  - right. exists (c :: u), v. auto.
Qed.

Lemma last_split_app (sep : char) (u v : pystr) :
  ~ In sep v -> last (py_split sep (u ++ sep :: v)) [] = v.
Proof.
  intros Hv. rewrite py_split_app, (py_split_no_sep sep v Hv). apply last_last.
Qed.

Lemma py_isspace_colon : py_isspace colon = false.
Proof. reflexivity. Qed.

(** Trimming a piece before taking its last colon-delimited segment does
    not change the trimmed segment. *)
Lemma last_segment_strip (piece : pystr) :
  py_strip (last_segment (py_strip piece)) = py_strip (last_segment piece).
Proof.
  unfold last_segment.
  destruct (last_sep_cases colon piece) as [Hno | (u & v & -> & Hv)].
  - rewrite (py_split_no_sep _ _ Hno).
    rewrite py_split_no_sep by (intros H; apply Hno; now apply py_strip_In).
    simpl. apply py_strip_idem.
  - rewrite (last_split_app _ _ _ Hv).
    unfold py_strip at 2, py_lstrip.
    rewrite drop_while_app_stop by exact py_isspace_colon.
    rewrite py_rstrip_app_stop by exact py_isspace_colon.
    rewrite last_split_app by (intros H; apply Hv; now apply py_rstrip_In).
    apply py_strip_rstrip.
Qed.

(** *** Replacing *)

Lemma replace_from_skip (old new u r : pystr) :
  replace_from old new (List.length u) (u ++ r) = replace_from old new 0 r.
Proof.
  induction u as [|c u IH]; simpl; [|exact IH].
  destruct r; reflexivity.
Qed.

Lemma py_replace_no_occurrence (old new s : pystr) :
  occurs old s = false -> py_replace old new s = s.
Proof.
  unfold py_replace. induction s as [|c s IH]; [reflexivity|].
  intros H. simpl in H. apply orb_false_elim in H as [H1 H2].
  change (replace_from old new 0 (c :: s))
    with (if starts_with old (c :: s)
          then new ++ replace_from old new (List.length old - 1) s
          else c :: replace_from old new 0 s).
  rewrite H1, IH by exact H2. reflexivity.
Qed.

Lemma starts_with_app (p s : pystr) :
  starts_with p s = true -> s = p ++ skipn (List.length p) s.
Proof.
  revert s. induction p as [|a p IH]; intros s H; [reflexivity|].
  destruct s as [|b s]; [discriminate|]. simpl in H.
  apply andb_true_iff in H as [E H]. apply N.eqb_eq in E. subst b.
  simpl. f_equal. now apply IH.
Qed.

Lemma py_replace_leading_marker (raw : pystr) :
  marker_only_leading raw = true ->
  py_replace skills_marker [] raw = strip_leading_marker raw.
Proof.
  unfold marker_only_leading, strip_leading_marker. intros H.
  apply negb_true_iff in H.
  destruct (starts_with skills_marker raw) eqn:E.
  - rewrite (starts_with_app _ _ E) at 1.
    set (rest := skipn (List.length skills_marker) raw) in *.
    unfold py_replace.
    change (replace_from skills_marker [] 0 (skills_marker ++ rest))
      with (replace_from skills_marker [] (List.length (tl skills_marker))
              (tl skills_marker ++ rest)).
    rewrite replace_from_skip.
    now apply py_replace_no_occurrence.
  - now apply py_replace_no_occurrence.
Qed.

(** *** The loops of [clean_skills] as list operations *)

Lemma inner_loop_filter_map (f : pystr -> pystr) (parts : list pystr)
      (acc : list pystr) :
  fold_left (fun cleaned part =>
               if nonempty (f part) then cleaned ++ [f part] else cleaned)
            parts acc
  = acc ++ filter nonempty (map f parts).
Proof.
  revert acc. induction parts as [|q parts IH]; intros acc; simpl.
  - now rewrite app_nil_r.
  - rewrite IH. destruct (nonempty (f q)); [|reflexivity].
    now rewrite <- app_assoc.
Qed.

Lemma clean_skills_flat_map (skills_list : list pystr) :
  clean_skills skills_list = flat_map cleaned_of skills_list.
Proof.
  unfold clean_skills.
  enough (G : forall acc,
             fold_left
               (fun cleaned_skills skill =>
                  let parts :=
                    py_split comma (py_replace skills_marker [] skill) in
                  fold_left
                    (fun cleaned part =>
                       let cleaned_skill :=
                         py_strip (last (py_split colon (py_strip part)) []) in
                       if nonempty cleaned_skill
                       then cleaned ++ [cleaned_skill] else cleaned)
                    parts cleaned_skills)
               skills_list acc
             = acc ++ flat_map cleaned_of skills_list) by apply (G []).
  induction skills_list as [|skill l IH]; intros acc; simpl.
  - now rewrite app_nil_r.
  - rewrite IH, app_assoc. f_equal.
    apply (inner_loop_filter_map
             (fun part => py_strip (last (py_split colon (py_strip part)) []))).
Qed.

(* ================================================================== *)
(** ** C1: [clean_skills] against the algorithm of the specification *)
(* ================================================================== *)

Lemma cleaned_of_segments (raw : pystr) :
  cleaned_of raw =
  filter nonempty
    (map (fun piece => py_strip (last_segment piece))
         (py_split comma (py_replace skills_marker [] raw))).
Proof.
  unfold cleaned_of. f_equal. apply map_ext. intros piece.
  apply last_segment_strip.
Qed.

Lemma clean_skills_all_markers (skills_list : list pystr) :
  clean_skills skills_list =
  clean_skills_with (py_replace skills_marker []) skills_list.
Proof.
  rewrite clean_skills_flat_map. unfold clean_skills_with.
  apply flat_map_ext. exact cleaned_of_segments.
Qed.

Lemma clean_skills_with_ext_in (f g : pystr -> pystr) (l : list pystr) :
  Forall (fun raw => f raw = g raw) l ->
  clean_skills_with f l = clean_skills_with g l.
Proof.
  intros H. unfold clean_skills_with.
  induction H as [|raw l E _ IH]; [reflexivity|].
  cbn [flat_map]. now rewrite IH, E.
Qed.

Lemma strip_leading_marker_app (rest : pystr) :
  strip_leading_marker (skills_marker ++ rest) = rest.
Proof. reflexivity. Qed.

Lemma clean_skills_spec_labelled_pair (a x b y : pystr) :
  (forall c, In c (a ++ x ++ b ++ y) -> c <> comma /\ c <> colon) ->
  py_strip x <> [] -> py_strip y <> [] ->
  clean_skills_spec [labelled_pair a x b y] = [py_strip x; py_strip y].
Proof.
  intros Hc Hx Hy.
  assert (Ha : forall c, In c a -> c <> comma /\ c <> colon)
    by (intros c H; apply Hc; apply in_or_app; auto).
  assert (Hx' : forall c, In c x -> c <> comma /\ c <> colon)
    by (intros c H; apply Hc; apply in_or_app; right; apply in_or_app; auto).
  assert (Hb : forall c, In c b -> c <> comma /\ c <> colon)
    by (intros c H; apply Hc; do 2 (apply in_or_app; right); apply in_or_app; auto).
  assert (Hy' : forall c, In c y -> c <> comma /\ c <> colon)
    by (intros c H; apply Hc; do 3 (apply in_or_app; right); exact H).
  unfold clean_skills_spec, clean_skills_with, labelled_pair. cbn [flat_map].
  rewrite app_nil_r, strip_leading_marker_app.
  replace (space :: a ++ colon :: space :: x ++ comma :: space :: b ++ colon :: space :: y)
    with ((space :: a ++ colon :: space :: x) ++ comma :: (space :: b ++ colon :: space :: y))
    by (simpl; now rewrite <- app_assoc).
  rewrite py_split_app.
  rewrite (py_split_no_sep comma (space :: a ++ colon :: space :: x)).
  2:{ simpl. intros [E|E]; [discriminate|].
      apply in_app_or in E as [E|[E|[E|E]]];
        [apply Ha in E; tauto | discriminate | discriminate | apply Hx' in E; tauto]. }
  rewrite (py_split_no_sep comma (space :: b ++ colon :: space :: y)).
  2:{ simpl. intros [E|E]; [discriminate|].
      apply in_app_or in E as [E|[E|[E|E]]];
        [apply Hb in E; tauto | discriminate | discriminate | apply Hy' in E; tauto]. }
  change ([?p] ++ [?q]) with [p; q]. cbn [map]. unfold last_segment.
  change (space :: a ++ colon :: space :: x) with ((space :: a) ++ colon :: space :: x).
  change (space :: b ++ colon :: space :: y) with ((space :: b) ++ colon :: space :: y).
  rewrite (last_split_app colon (space :: a) (space :: x)).
  2:{ simpl. intros [E|E]; [discriminate | apply Hx' in E; tauto]. }
  rewrite (last_split_app colon (space :: b) (space :: y)).
  2:{ simpl. intros [E|E]; [discriminate | apply Hy' in E; tauto]. }
  rewrite !(py_strip_cons_space space) by reflexivity.
  cbn [filter]. apply nonempty_true in Hx, Hy. now rewrite Hx, Hy.
Qed.

(** C1 (as amended): for every list of raw skill strings, [clean_skills]
    equals the algorithm of the specification with every occurrence of
    the marker ["SKILLS:"] removed from an entry, leading or not (then:
    split on [","], trimmed last colon-delimited segment of each piece,
    empty results dropped, flattened in input order with duplicates
    kept); so it equals the algorithm as specified, which strips a
    leading marker, on the lists whose entries hold the marker in leading
    position only; and on one entry of the form ["SKILLS: a: x, b: y"]
    that holds no other marker, with no comma or colon in [a], [x], [b],
    [y] and with [x], [y] not blank, the result is the trimmed [x] and
    [y], in that order. *)
Theorem clean_skills_refines_spec (skills_list : list pystr) :
  clean_skills skills_list =
    clean_skills_with (py_replace skills_marker []) skills_list
  /\ (Forall (fun raw => marker_only_leading raw = true) skills_list ->
      clean_skills skills_list = clean_skills_spec skills_list)
  /\ (forall a x b y,
         skills_list = [labelled_pair a x b y] ->
         marker_only_leading (labelled_pair a x b y) = true ->
         (forall c, In c (a ++ x ++ b ++ y) -> c <> comma /\ c <> colon) ->
         py_strip x <> [] -> py_strip y <> [] ->
         clean_skills skills_list = [py_strip x; py_strip y]).
Proof.
  assert (E : Forall (fun raw => marker_only_leading raw = true) skills_list ->
              clean_skills skills_list = clean_skills_spec skills_list).
  { intros Hall. rewrite clean_skills_all_markers. unfold clean_skills_spec.
    apply clean_skills_with_ext_in.
    apply (Forall_impl _ py_replace_leading_marker Hall). }
  split; [apply clean_skills_all_markers|]. split; [exact E|].
  intros a x b y -> Hm Hc Hx Hy.
  rewrite E by (constructor; [exact Hm | constructor]).
  now apply clean_skills_spec_labelled_pair.
Qed.

Lemma clean_skills_refines_spec_witness :
  Forall (fun raw => marker_only_leading raw = true) demo_pair
  /\ clean_skills demo_pair = clean_skills_spec demo_pair
  /\ clean_skills demo_pair = [of_string "Python"; of_string "Git"].
Proof.
  assert (Hall : Forall (fun raw => marker_only_leading raw = true) demo_pair)
    by (repeat constructor).
  destruct (clean_skills_refines_spec demo_pair) as (_ & E & P).
  split; [exact Hall|]. split; [exact (E Hall)|].
  refine (eq_trans (P _ _ _ _ eq_refl eq_refl _ _ _) _).
  - intros c H. vm_compute in H.
    repeat (destruct H as [<-|H]; [split; discriminate|]). destruct H.
  - vm_compute. discriminate.
  - vm_compute. discriminate.
  - reflexivity.
Defined.

(** C1 as stated fails: a marker that is not in leading position is
    removed by the code and kept (then cut at its colon) by the
    algorithm of the specification. *)
Lemma clean_skills_not_leading_marker :
  clean_skills [of_string "aSKILLS:b"] = [of_string "ab"]
  /\ clean_skills_spec [of_string "aSKILLS:b"] = [of_string "b"]
  /\ clean_skills [of_string "aSKILLS:b"]
     <> clean_skills_spec [of_string "aSKILLS:b"].
Proof.
  split; [reflexivity|]. split; [reflexivity|]. discriminate.
Qed.

(* ================================================================== *)
(** ** C2: post-processing of the model output *)
(* ================================================================== *)

Lemma py_split_app_no_sep (sep : char) (u v : pystr) :
  ~ In sep v ->
  py_split sep (u ++ v) =
  removelast (py_split sep u) ++ [last (py_split sep u) [] ++ v].
Proof.
  intros Hv. induction u as [|c u IH].
  - simpl. now apply py_split_no_sep.
  - cbn [app py_split]. rewrite IH.
    pose proof (py_split_nonempty sep u) as Hne.
    destruct (py_split sep u) as [|q qs]; [congruence|].
    destruct (c =? sep)%N; [reflexivity|].
    destruct qs; reflexivity.
Qed.

Lemma trimmed_lines_of_app (l1 l2 : list pystr) :
  map py_strip (filter (fun q => nonempty (py_strip q)) (l1 ++ l2)) =
  map py_strip (filter (fun q => nonempty (py_strip q)) l1)
  ++ map py_strip (filter (fun q => nonempty (py_strip q)) l2).
Proof. now rewrite filter_app, map_app. Qed.

Lemma trimmed_lines_cons_space (c : char) (s : pystr) :
  py_isspace c = true -> trimmed_lines (c :: s) = trimmed_lines s.
Proof.
  intros Hc. unfold trimmed_lines. cbn [py_split].
  destruct (c =? newline)%N; [reflexivity|].
  pose proof (py_split_nonempty newline s) as Hne.
  destruct (py_split newline s) as [|q qs]; [congruence|].
  cbn [filter]. rewrite (py_strip_cons_space c q Hc).
  destruct (nonempty (py_strip q)); [|reflexivity].
  cbn [map]. now rewrite (py_strip_cons_space c q Hc).
Qed.

Lemma trimmed_line_snoc_space (q : pystr) (c : char) :
  py_isspace c = true ->
  map py_strip (filter (fun q => nonempty (py_strip q)) [q ++ [c]]) =
  map py_strip (filter (fun q => nonempty (py_strip q)) [q]).
Proof.
  intros Hc. cbn [filter]. rewrite (py_strip_snoc_space q c Hc).
  destruct (nonempty (py_strip q)); [|reflexivity].
  cbn [map]. now rewrite (py_strip_snoc_space q c Hc).
Qed.

Lemma trimmed_lines_snoc_space (s : pystr) (c : char) :
  py_isspace c = true -> trimmed_lines (s ++ [c]) = trimmed_lines s.
Proof.
  intros Hc. unfold trimmed_lines.
  destruct (N.eqb_spec c newline) as [->|Hne].
  - rewrite py_split_app, trimmed_lines_of_app. simpl. apply app_nil_r.
  - rewrite py_split_app_no_sep
      by (simpl; intros [E|[]]; congruence).
    rewrite (app_removelast_last [] (py_split_nonempty newline s)) at 3.
    rewrite !trimmed_lines_of_app. f_equal.
    exact (trimmed_line_snoc_space _ c Hc).
Qed.

Lemma trimmed_lines_lstrip (s : pystr) :
  trimmed_lines (py_lstrip s) = trimmed_lines s.
Proof.
  unfold py_lstrip. induction s as [|c s IH]; [reflexivity|]. simpl.
  destruct (py_isspace c) eqn:Hc; [|reflexivity].
  now rewrite IH, (trimmed_lines_cons_space c s Hc).
Qed.

Lemma trimmed_lines_rstrip (s : pystr) :
  trimmed_lines (py_rstrip s) = trimmed_lines s.
Proof.
  unfold py_rstrip. rewrite <- (rev_involutive s) at 2.
  induction (rev s) as [|c r IH]; [reflexivity|]. simpl.
  destruct (py_isspace c) eqn:Hc; [|reflexivity].
  now rewrite IH, (trimmed_lines_snoc_space (rev r) c Hc).
Qed.

(** Trimming the whole text first changes no trimmed line. *)
Lemma trimmed_lines_strip (s : pystr) :
  trimmed_lines (py_strip s) = trimmed_lines s.
Proof.
  unfold py_strip. now rewrite trimmed_lines_rstrip, trimmed_lines_lstrip.
Qed.


Lemma postprocess_trimmed_lines (result : pystr) :
  postprocess result =
  map (py_lstrip_chars marker_chars) (trimmed_lines result).
Proof.
  unfold postprocess. rewrite <- (trimmed_lines_strip result).
  unfold trimmed_lines. now rewrite map_map.
Qed.






(* ================================================================== *)
(** ** The handler, path by path *)
(* ================================================================== *)

Section HandlerPaths.

Variable w : world.

Lemma fetch_parsed_data_run (bucket_name : pystr) (user_id : pyval)
      (t : list call) :
  fetch_parsed_data w bucket_name user_id t =
  (fetch_outcome w bucket_name user_id,
   t ++ [S3GetObject bucket_name (file_key w user_id)]).
Proof.
  unfold fetch_parsed_data, fetch_outcome. run.
  destruct (s3_get_object w bucket_name (file_key w user_id)); [reflexivity|].
  destruct (decode_utf8 w l); reflexivity.
Qed.

Lemma lambda_handler_run (event : pyval) (t : list call) :
  lambda_handler w event t =
  match handler_body w event t with
  | (inl e, t') =>
      (inr (error_response w 500
              (of_string "Internal server error: " ++ exn_str e)), t')
  | (inr resp, t') => (inr resp, t')
  end.
Proof.
  unfold lambda_handler. run.
  destruct (handler_body w event t) as [[e|resp] t']; reflexivity.
Qed.

Lemma handler_body_at_fetch (event : pyval) (bucket_name : pystr)
      (user_id : pyval) (t : list call) :
  reaches_fetch w event bucket_name user_id ->
  handler_body w event t =
  match fetch_outcome w bucket_name user_id with
  | inl e =>
      (inr (error_response w 404
              (of_string "Failed to retrieve parsed data: " ++ exn_str e)),
       t ++ [S3GetObject bucket_name (file_key w user_id)])
  | inr parsed_data =>
      generate_questions w parsed_data
        (t ++ [S3GetObject bucket_name (file_key w user_id)])
  end.
Proof.
  intros [raw_body body Hraw Hbody Huid Htruthy Hclient Henv].
  unfold handler_body. run.
  rewrite Hraw, Hbody, Huid, Htruthy, Hclient, Henv. cbn [negb]. cbv beta iota.
  rewrite fetch_parsed_data_run.
  destruct (fetch_outcome w bucket_name user_id); reflexivity.
Qed.

(** Before the fetch the handler either stops without any service call
    (an exception, or the 400 for a [userId] that counts as false) or
    gets to the fetch. *)
Lemma handler_body_before_fetch (event : pyval) (t : list call) :
  (exists e, handler_body w event t = (inl e, t))
  \/ (handler_body w event t =
      (inr (error_response w 400 (of_string "userId is required")), t)
      /\ exists raw_body body user_id,
           py_get event (of_string "body") (PStr (of_string "{}")) = inr raw_body
           /\ py_json_loads w raw_body = inr body
           /\ py_get body (of_string "userId") PNone = inr user_id
           /\ truthy user_id = false)
  \/ (exists bucket_name user_id, reaches_fetch w event bucket_name user_id).
Proof.
  destruct (py_get event (of_string "body") (PStr (of_string "{}")))
    as [e|raw_body] eqn:Hraw.
  { left. exists e. unfold handler_body. run. now rewrite Hraw. }
  destruct (py_json_loads w raw_body) as [e|body] eqn:Hbody.
  { left. exists e. unfold handler_body. run. now rewrite Hraw, Hbody. }
  destruct (py_get body (of_string "userId") PNone) as [e|user_id] eqn:Huid.
  { left. exists e. unfold handler_body. run. now rewrite Hraw, Hbody, Huid. }
  destruct (truthy user_id) eqn:Htruthy.
  2:{ right. left. split.
      - unfold handler_body. run. now rewrite Hraw, Hbody, Huid, Htruthy.
      - exists raw_body, body, user_id. auto. }
  destruct (boto3_client w (of_string "s3") None) as [e|[]] eqn:Hclient.
  { left. exists e. unfold handler_body. run.
    now rewrite Hraw, Hbody, Huid, Htruthy, Hclient. }
  destruct (environ w (of_string "BUCKET_NAME")) as [bucket_name|] eqn:Henv.
  2:{ left. exists (KeyError (of_string "BUCKET_NAME")).
      unfold handler_body. run.
      now rewrite Hraw, Hbody, Huid, Htruthy, Hclient, Henv. }
  right. right. exists bucket_name, user_id.
  exact (ReachesFetch w event bucket_name user_id raw_body body
           Hraw Hbody Huid Htruthy Hclient Henv).
Qed.

(** An exception before the model call leaves [generate_questions] as it
    was raised, with no call added. *)
Lemma generate_questions_raises_early (parsed_data : pyval) (e : exn)
      (t : list call) :
  raises_before_model w parsed_data e ->
  generate_questions w parsed_data t = (inl e, t).
Proof.
  intros R. unfold generate_questions. run.
  destruct R as [H1 | raw H1 H2 | raw skills H1 H2 H3 H4
                | raw skills H1 H2 H3 H4 H5
                | raw skills H1 H2 H3 H4 H5 H6
                | raw skills H1 H2 H3 H4 H5 H6 H7];
    rewrite H1; try (rewrite H2);
    try (destruct skills as [|skill skills]; [congruence|]);
    try reflexivity.
  - now rewrite H4.
  - now rewrite H4, H5.
  - rewrite H4, H5. destruct parsed_data; try discriminate H1.
    cbn [py_get]. now rewrite H6.
  - rewrite H4, H5. destruct parsed_data; try discriminate H1.
    cbn [py_get]. now rewrite H6, H7.
Qed.

(** Once the model is called, [generate_questions] ends as the call
    does, with the call added. *)
Lemma generate_questions_model_called (parsed_data : pyval)
      (skills : list pystr) (projects : pyval) (t : list call) :
  model_called w parsed_data skills projects ->
  generate_questions w parsed_data t =
  match chain_run w (py_join (of_string ", ") skills) projects with
  | inl e =>
      (inl e, t ++ [ChainRun (py_join (of_string ", ") skills) projects])
  | inr output =>
      (inr (success_response w (postprocess output) skills),
       t ++ [ChainRun (py_join (of_string ", ") skills) projects])
  end.
Proof.
  intros [raw H1 H2 H3 H4 H5 H6 H7 H8]. unfold generate_questions. run.
  rewrite H1, H2. destruct skills as [|skill skills]; [congruence|].
  rewrite H4, H5, H6, H7, H8.
  destruct (chain_run w (py_join (of_string ", ") (skill :: skills)) projects);
    reflexivity.
Qed.

(** How [generate_questions] ends. *)
Lemma generate_questions_generation (parsed_data : pyval) (t : list call) :
  generation w parsed_data t
    (fst (generate_questions w parsed_data t))
    (snd (generate_questions w parsed_data t)).
Proof.
  destruct (py_get parsed_data (of_string "skills") (PList []))
    as [e|raw_skills] eqn:Hraw.
  { rewrite (generate_questions_raises_early parsed_data e t
               (RaisedReadingSkills w parsed_data e Hraw)).
    apply GenRaisedEarly, RaisedReadingSkills, Hraw. }
  destruct (py_clean_skills raw_skills) as [e|skills] eqn:Hclean.
  { rewrite (generate_questions_raises_early parsed_data e t
               (RaisedCleaning w parsed_data e raw_skills Hraw Hclean)).
    apply GenRaisedEarly. exact (RaisedCleaning w parsed_data e raw_skills Hraw Hclean). }
  destruct skills as [|skill skills].
  { unfold generate_questions. run. rewrite Hraw, Hclean. cbn [fst snd].
    exact (GenNoSkills w parsed_data t raw_skills Hraw Hclean). }
  assert (Hne : skill :: skills <> []) by discriminate.
  destruct (boto3_client w (of_string "bedrock-runtime")
                         (Some (of_string "ap-south-1"))) as [e|[]] eqn:H4.
  { pose (R := RaisedBedrockClient w parsed_data e raw_skills (skill :: skills)
                 Hraw Hclean Hne H4).
    rewrite (generate_questions_raises_early parsed_data e t R).
    exact (GenRaisedEarly w parsed_data t e R). }
  destruct (Bedrock w model_id) as [e|[]] eqn:H5.
  { pose (R := RaisedBedrock w parsed_data e raw_skills (skill :: skills)
                 Hraw Hclean Hne H4 H5).
    rewrite (generate_questions_raises_early parsed_data e t R).
    exact (GenRaisedEarly w parsed_data t e R). }
  destruct (PromptTemplate w [of_string "skills"; of_string "projects"]
                           prompt_template) as [e|[]] eqn:H6.
  { pose (R := RaisedPromptTemplate w parsed_data e raw_skills (skill :: skills)
                 Hraw Hclean Hne H4 H5 H6).
    rewrite (generate_questions_raises_early parsed_data e t R).
    exact (GenRaisedEarly w parsed_data t e R). }
  destruct (LLMChain w) as [e|[]] eqn:H7.
  { pose (R := RaisedLLMChain w parsed_data e raw_skills (skill :: skills)
                 Hraw Hclean Hne H4 H5 H6 H7).
    rewrite (generate_questions_raises_early parsed_data e t R).
    exact (GenRaisedEarly w parsed_data t e R). }
  assert (Hproj : exists projects,
             py_get parsed_data (of_string "projects") (PStr []) = inr projects).
  { destruct parsed_data; try discriminate Hraw. eexists. reflexivity. }
  destruct Hproj as [projects Hproj].
  pose (C := ModelCalled w parsed_data (skill :: skills) projects raw_skills
               Hraw Hclean Hne H4 H5 Hproj H6 H7).
  rewrite (generate_questions_model_called parsed_data (skill :: skills)
             projects t C).
  destruct (chain_run w (py_join (of_string ", ") (skill :: skills)) projects)
    as [e|output] eqn:Hrun; cbn [fst snd].
  - exact (GenModelRaised w parsed_data t (skill :: skills) projects e C Hrun).
  - exact (GenAnswered w parsed_data t (skill :: skills) projects output C Hrun).
Qed.

End HandlerPaths.

(* ================================================================== *)
(** ** C5, C9, C10: what happens before the storage fetch *)
(* ================================================================== *)

(** C5: when the JSON body of the event has no [userId] key, or has the
    empty string there, the handler answers 400 with
    [{error: "userId is required"}] whatever the storage and the model
    would do, and makes no service call: neither the storage read nor
    the inference call. *)
Theorem missing_user_id_400 (w : world) (event : pyval) (text : pystr)
        (d : list (pystr * pyval)) (t : list call) :
  py_get event (of_string "body") (PStr (of_string "{}")) = inr (PStr text) ->
  json_loads w text = inr (PDict d) ->
  assoc (of_string "userId") d = None
  \/ assoc (of_string "userId") d = Some (PStr []) ->
  lambda_handler w event t =
  (inr (error_response w 400 (of_string "userId is required")), t).
Proof.
  intros Hraw Hbody Huid.
  rewrite lambda_handler_run. unfold handler_body, bind, lift, ret.
  rewrite Hraw. cbn [py_json_loads]. rewrite Hbody. cbn [py_get].
  destruct Huid as [-> | ->]; reflexivity.
Qed.

Lemma missing_user_id_400_witness :
  lambda_handler world_answers
    (PDict [(of_string "body", PStr (json_text "{}"))]) []
  = (inr (error_response world_answers 400 (of_string "userId is required")),
     []).
Proof.
  apply (missing_user_id_400 world_answers
           (PDict [(of_string "body", PStr (json_text "{}"))])
           (json_text "{}") [] []).
  - reflexivity.
  - reflexivity.
  - left. reflexivity.
Defined.

(** C9: when the event has a ['body'] that [json.loads] refuses, be it a
    string that does not parse or a value that is not a string, the
    handler answers 500 through the catch-all
    (["Internal server error: ..."]), not 400; an event with no ['body']
    key is read as ['{}'] and, that text being the empty object, gets the
    400 ["userId is required"]. *)
Theorem unparseable_body_500 (w : world) (ev : list (pystr * pyval))
        (t : list call) :
  (forall raw_body e,
      assoc (of_string "body") ev = Some raw_body ->
      py_json_loads w raw_body = inl e ->
      lambda_handler w (PDict ev) t =
      (inr (error_response w 500
              (of_string "Internal server error: " ++ exn_str e)), t))
  /\ (forall raw_body,
         assoc (of_string "body") ev = Some raw_body ->
         (forall s, raw_body <> PStr s) ->
         exists e, py_json_loads w raw_body = inl e)
  /\ (assoc (of_string "body") ev = None ->
      json_loads w (of_string "{}") = inr (PDict []) ->
      lambda_handler w (PDict ev) t =
      (inr (error_response w 400 (of_string "userId is required")), t)).
Proof.
  split; [|split].
  - intros raw_body e Hraw Hloads.
    rewrite lambda_handler_run. unfold handler_body, bind, lift, ret.
    cbn [py_get]. rewrite Hraw, Hloads. reflexivity.
  - intros raw_body _ Hnot.
    destruct raw_body; try (eexists; reflexivity).
    now destruct (Hnot s).
  - intros Hraw Hloads.
    rewrite lambda_handler_run. unfold handler_body, bind, lift, ret.
    cbn [py_get]. rewrite Hraw. cbn [py_json_loads]. rewrite Hloads.
    reflexivity.
Qed.

Lemma unparseable_body_500_witness :
  lambda_handler world_answers
    (PDict [(of_string "body", PStr (of_string "userId=u1"))]) []
  = (inr (error_response world_answers 500
            (of_string "Internal server error: Expecting value: line 1 column 1 (char 0)")),
     [])
  /\ lambda_handler world_answers (PDict [(of_string "body", PNone)]) []
     = (inr (error_response world_answers 500
               (of_string "Internal server error: the JSON object must be str, bytes or bytearray, not NoneType")),
        [])
  /\ lambda_handler world_answers (PDict []) []
     = (inr (error_response world_answers 400 (of_string "userId is required")),
        []).
Proof.
  split; [|split].
  - exact (proj1 (unparseable_body_500 world_answers
             [(of_string "body", PStr (of_string "userId=u1"))] [])
             (PStr (of_string "userId=u1")) _ eq_refl eq_refl).
  - exact (proj1 (unparseable_body_500 world_answers
             [(of_string "body", PNone)] [])
             PNone _ eq_refl eq_refl).
  - exact (proj2 (proj2 (unparseable_body_500 world_answers [] []))
             eq_refl eq_refl).
Defined.

(** C10: with a truthy [userId] in the request and [BUCKET_NAME] unset,
    the handler answers 500 through the catch-all, not 404, and the
    storage read is not made; when the storage client was built, the
    error text is that of the [KeyError]. *)
Theorem unset_bucket_name_500 (w : world) (event raw_body body user_id : pyval)
        (t : list call) :
  py_get event (of_string "body") (PStr (of_string "{}")) = inr raw_body ->
  py_json_loads w raw_body = inr body ->
  py_get body (of_string "userId") PNone = inr user_id ->
  truthy user_id = true ->
  environ w (of_string "BUCKET_NAME") = None ->
  exists e,
    lambda_handler w event t =
    (inr (error_response w 500
            (of_string "Internal server error: " ++ exn_str e)), t)
    /\ (boto3_client w (of_string "s3") None = inr tt ->
        e = KeyError (of_string "BUCKET_NAME")).
Proof.
  intros Hraw Hbody Huid Htruthy Henv.
  rewrite lambda_handler_run. unfold handler_body, bind, lift, ret.
  rewrite Hraw, Hbody, Huid, Htruthy, Henv. cbn [negb].
  destruct (boto3_client w (of_string "s3") None) as [e|[]].
  - exists e. split; [reflexivity | discriminate].
  - exists (KeyError (of_string "BUCKET_NAME")). split; reflexivity.
Qed.

Lemma unset_bucket_name_500_witness :
  lambda_handler world_no_bucket demo_event []
  = (inr (error_response world_no_bucket 500
            (of_string "Internal server error: 'BUCKET_NAME'")), []).
Proof.
  destruct (unset_bucket_name_500 world_no_bucket demo_event
              (PStr (json_text "{'userId': 'u1'}"))
              (PDict [(of_string "userId", PStr (of_string "u1"))])
              (PStr (of_string "u1")) []
              eq_refl eq_refl eq_refl eq_refl eq_refl) as [e [Hrun He]].
  rewrite (He eq_refl) in Hrun. exact Hrun.
Defined.

(* ================================================================== *)
(** ** C4, C3: the two early answers after the fetch is attempted *)
(* ================================================================== *)

Lemma demo_reaches_fetch (stored : result (list Byte.byte))
      (answer : result pystr) :
  reaches_fetch (demo_world (Some (of_string "resumes")) stored answer)
                demo_event (of_string "resumes") (PStr (of_string "u1")).
Proof.
  apply (ReachesFetch _ demo_event _ _
           (PStr (json_text "{'userId': 'u1'}"))
           (PDict [(of_string "userId", PStr (of_string "u1"))]));
    reflexivity.
Defined.

(** C4: when the handler gets to the storage read of
    [generated/{userId}_parsed.json] and the read fails, whether the
    object cannot be got, its bytes cannot be decoded or its text is not
    JSON, the handler answers 404 with
    [{error: "Failed to retrieve parsed data: <details>"}]; the storage
    read is the only service call made, so no inference call. *)
Theorem storage_failure_404 (w : world) (event : pyval) (bucket_name : pystr)
        (user_id : pyval) (e : exn) (t : list call) :
  reaches_fetch w event bucket_name user_id ->
  s3_get_object w bucket_name (file_key w user_id) = inl e
  \/ (exists data,
         s3_get_object w bucket_name (file_key w user_id) = inr data
         /\ decode_utf8 w data = inl e)
  \/ (exists data text,
         s3_get_object w bucket_name (file_key w user_id) = inr data
         /\ decode_utf8 w data = inr text
         /\ json_loads w text = inl e) ->
  lambda_handler w event t =
  (inr (error_response w 404
          (of_string "Failed to retrieve parsed data: " ++ exn_str e)),
   t ++ [S3GetObject bucket_name
           (of_string "generated/" ++ py_str w user_id
              ++ of_string "_parsed.json")]).
Proof.
  intros Hreach Hfail.
  assert (Hout : fetch_outcome w bucket_name user_id = inl e).
  { unfold fetch_outcome.
    destruct Hfail as [H | [(data & H1 & H2) | (data & text & H1 & H2 & H3)]].
    - now rewrite H.
    - now rewrite H1, H2.
    - now rewrite H1, H2, H3. }
  rewrite lambda_handler_run, (handler_body_at_fetch w event bucket_name user_id t Hreach).
  rewrite Hout. reflexivity.
Qed.

Lemma storage_failure_404_witness :
  lambda_handler world_missing_record demo_event []
  = (inr (error_response world_missing_record 404
            (of_string "Failed to retrieve parsed data: The specified key does not exist.")),
     [S3GetObject (of_string "resumes") demo_key]).
Proof.
  apply (storage_failure_404 world_missing_record demo_event
           (of_string "resumes") (PStr (of_string "u1")) NoSuchKey []).
  - apply demo_reaches_fetch.
  - left. reflexivity.
Defined.

(** *** Blank entries clean to nothing *)

Lemma drop_while_head (p : char -> bool) (s r : pystr) (c : char) :
  drop_while p s = c :: r -> p c = false.
Proof.
  induction s as [|a s IH]; simpl; [discriminate|].
  destruct (p a) eqn:E; [exact IH|]. intros H. now inversion H; subst.
Qed.

Lemma drop_while_nil (p : char -> bool) (s : pystr) :
  drop_while p s = [] -> forall c, In c s -> p c = true.
Proof.
  induction s as [|a s IH]; simpl; [tauto|].
  destruct (p a) eqn:E; [|discriminate].
  intros H c [<-|Hc]; [exact E | now apply IH].
Qed.

Lemma py_strip_nil_all_space (s : pystr) :
  py_strip s = [] -> forall c, In c s -> py_isspace c = true.
Proof.
  unfold py_strip, py_rstrip, py_lstrip. intros H.
  assert (H1 : drop_while py_isspace (rev (drop_while py_isspace s)) = []).
  { apply (f_equal (@rev char)) in H. now rewrite rev_involutive in H. }
  destruct (drop_while py_isspace s) as [|c r] eqn:E.
  - now apply drop_while_nil.
  - pose proof (drop_while_head _ _ _ _ E) as Hc.
    pose proof (drop_while_nil _ _ H1 c) as Hc'.
    rewrite Hc' in Hc; [discriminate|]. apply -> in_rev. now left.
Qed.

Lemma all_space_no_marker (s : pystr) :
  (forall c, In c s -> py_isspace c = true) -> occurs skills_marker s = false.
Proof.
  induction s as [|c s IH]; intros H; [reflexivity|].
  cbn [occurs]. rewrite IH by (intros; apply H; now right).
  rewrite orb_false_r. cbn [starts_with skills_marker].
  destruct (N.eqb_spec 83 c) as [<-|_]; [|reflexivity].
  now specialize (H 83%N (or_introl eq_refl)).
Qed.

Lemma cleaned_of_blank (s : pystr) : py_strip s = [] -> cleaned_of s = [].
Proof.
  intros Hs. pose proof (py_strip_nil_all_space s Hs) as Hall.
  unfold cleaned_of.
  rewrite py_replace_no_occurrence by now apply all_space_no_marker.
  rewrite py_split_no_sep
    by (intros H; apply Hall in H; discriminate H).
  cbn [map]. now rewrite Hs.
Qed.

Lemma clean_skills_blank (l : list pystr) :
  Forall (fun s => py_strip s = []) l -> clean_skills l = [].
Proof.
  intros H. rewrite clean_skills_flat_map.
  induction H as [|s l Hs _ IH]; [reflexivity|].
  cbn [flat_map]. now rewrite IH, (cleaned_of_blank s Hs).
Qed.

Lemma as_strings_map_PStr (l : list pystr) : as_strings (map PStr l) = inr l.
Proof.
  induction l as [|s l IH]; [reflexivity|]. cbn [map as_strings].
  now rewrite IH.
Qed.

(** An inference call that a run of [generate_questions] adds comes
    with everything before it done: the skills it joins are the cleaned,
    non-empty skills of the record. *)
Lemma generation_inference (w : world) (parsed_data : pyval) (t t' : list call)
      (r : result response) (skills_str : pystr) (projects : pyval) :
  generation w parsed_data t r t' ->
  In (ChainRun skills_str projects) t' ->
  In (ChainRun skills_str projects) t
  \/ exists skills,
       model_called w parsed_data skills projects
       /\ skills_str = py_join (of_string ", ") skills.
Proof.
  intros G Hin.
  destruct G as [e R | raw H1 H2 | skills projects0 e C Hrun
                | skills projects0 output C Hrun]; auto;
    apply in_app_or in Hin as [Hin|[Hin|[]]]; auto;
    inversion Hin; subst; right; eauto.
Qed.

(** C3: when the parsed record is fetched and its cleaned skills
    sequence is empty, the handler answers 400 with
    [{error: "No skills found in parsed data"}] and the storage read is
    the only service call made; a list of entries that are all empty or
    whitespace-only cleans to the empty sequence; and whenever a run of
    the handler calls the model, the record was fetched and the string
    passed is the [", "]-join of the sequence that [clean_skills] made
    of the record's skills, which is not empty. *)
Theorem no_skills_400 (w : world) (event : pyval) (t : list call) :
  (forall bucket_name user_id parsed_data raw_skills,
      reaches_fetch w event bucket_name user_id ->
      fetch_outcome w bucket_name user_id = inr parsed_data ->
      py_get parsed_data (of_string "skills") (PList []) = inr raw_skills ->
      py_clean_skills raw_skills = inr [] ->
      lambda_handler w event t =
      (inr (error_response w 400 (of_string "No skills found in parsed data")),
       t ++ [S3GetObject bucket_name (file_key w user_id)]))
  /\ (forall l, Forall (fun s => py_strip s = []) l ->
                py_clean_skills (PList (map PStr l)) = inr [])
  /\ (forall r t' skills_str projects,
         lambda_handler w event t = (r, t') ->
         In (ChainRun skills_str projects) t' ->
         In (ChainRun skills_str projects) t
         \/ exists bucket_name user_id parsed_data raw_skills skills,
              reaches_fetch w event bucket_name user_id
              /\ fetch_outcome w bucket_name user_id = inr parsed_data
              /\ py_get parsed_data (of_string "skills") (PList [])
                 = inr raw_skills
              /\ py_clean_skills raw_skills = inr skills
              /\ skills <> []
              /\ skills_str = py_join (of_string ", ") skills).
Proof.
  split; [|split].
  - intros bucket_name user_id parsed_data raw_skills Hreach Hout Hraw Hclean.
    rewrite lambda_handler_run,
      (handler_body_at_fetch w event bucket_name user_id t Hreach), Hout.
    unfold generate_questions, bind, lift, ret. now rewrite Hraw, Hclean.
  - intros l Hl. cbn [py_clean_skills].
    now rewrite as_strings_map_PStr, (clean_skills_blank l Hl).
  - intros r t' skills_str projects Hrun Hin.
    rewrite lambda_handler_run in Hrun.
    destruct (handler_body_before_fetch w event t)
      as [[e He] | [[H400 _] | (bucket_name & user_id & Hreach)]].
    + rewrite He in Hrun. inversion Hrun; subst. now left.
    + rewrite H400 in Hrun. inversion Hrun; subst. now left.
    + rewrite (handler_body_at_fetch w event bucket_name user_id t Hreach)
        in Hrun.
      destruct (fetch_outcome w bucket_name user_id) as [e|parsed_data] eqn:Hout.
      * inversion Hrun; subst.
        apply in_app_or in Hin as [Hin|[Hin|[]]]; [now left | discriminate Hin].
      * pose proof (generate_questions_generation w parsed_data
                      (t ++ [S3GetObject bucket_name (file_key w user_id)])) as G.
        destruct (generate_questions w parsed_data
                    (t ++ [S3GetObject bucket_name (file_key w user_id)]))
          as [r0 t0]. cbn [fst snd] in G.
        assert (t0 = t') by (destruct r0; now inversion Hrun). subst t0.
        destruct (generation_inference w parsed_data _ t' r0 skills_str
                    projects G Hin) as [Hold | (skills & C & Hjoin)].
        -- apply in_app_or in Hold as [Hold|[Hold|[]]];
             [now left | discriminate Hold].
        -- right. destruct C as [raw_skills H1 H2 H3 _ _ _ _ _].
           exists bucket_name, user_id, parsed_data, raw_skills, skills.
           repeat split; assumption.
Qed.

Lemma no_skills_400_witness :
  lambda_handler world_blank_skills demo_event []
  = (inr (error_response world_blank_skills 400
            (of_string "No skills found in parsed data")),
     [S3GetObject (of_string "resumes") demo_key])
  /\ py_clean_skills (PList (map PStr [of_string "  "; []])) = inr []
  /\ (In (ChainRun (of_string "x, y") (PStr [])) []
      \/ exists bucket_name user_id parsed_data raw_skills skills,
           reaches_fetch world_answers demo_event bucket_name user_id
           /\ fetch_outcome world_answers bucket_name user_id = inr parsed_data
           /\ py_get parsed_data (of_string "skills") (PList [])
              = inr raw_skills
           /\ py_clean_skills raw_skills = inr skills
           /\ skills <> []
           /\ of_string "x, y" = py_join (of_string ", ") skills).
Proof.
  split; [|split].
  - apply (proj1 (no_skills_400 world_blank_skills demo_event [])
             (of_string "resumes") (PStr (of_string "u1"))
             (PDict [(of_string "skills", PList [PStr (of_string " ")])])
             (PList [PStr (of_string " ")])).
    + apply demo_reaches_fetch.
    + reflexivity.
    + reflexivity.
    + reflexivity.
  - apply (proj1 (proj2 (no_skills_400 world_blank_skills demo_event []))).
    repeat constructor.
  - apply (proj2 (proj2 (no_skills_400 world_answers demo_event []))
             (inr (success_response world_answers
                     (postprocess example_output)
                     [of_string "x"; of_string "y"]))
             [S3GetObject (of_string "resumes") demo_key;
              ChainRun (of_string "x, y") (PStr [])]).
    + reflexivity.
    + right. left. reflexivity.
Defined.

(* ================================================================== *)
(** ** C6, C7, C8: the 200 answer, the catch-all and the envelope *)
(* ================================================================== *)

Lemma lambda_handler_handler_run (w : world) (event : pyval) (t : list call) :
  exists resp t',
    lambda_handler w event t = (inr resp, t') /\ handler_run w event t resp t'.
Proof.
  rewrite lambda_handler_run.
  destruct (handler_body_before_fetch w event t)
    as [[e He] | [[H400 (raw_body & body & user_id & H1 & H2 & H3 & H4)]
                 | (bucket_name & user_id & Hreach)]].
  - rewrite He. eexists _, _. split; [reflexivity|]. now apply RunRaisedBeforeFetch.
  - rewrite H400. eexists _, _. split; [reflexivity|].
    exact (RunNoUserId w event t raw_body body user_id H1 H2 H3 H4).
  - rewrite (handler_body_at_fetch w event bucket_name user_id t Hreach).
    destruct (fetch_outcome w bucket_name user_id) as [e|parsed_data] eqn:Hout.
    + eexists _, _. split; [reflexivity|].
      exact (RunFetchFailed w event t bucket_name user_id e Hreach Hout).
    + pose proof (generate_questions_generation w parsed_data
                    (t ++ [S3GetObject bucket_name (file_key w user_id)])) as G.
      destruct (generate_questions w parsed_data
                  (t ++ [S3GetObject bucket_name (file_key w user_id)]))
        as [[e|resp] t0]; cbn [fst snd] in G;
        eexists _, _; (split; [reflexivity|]).
      * exact (RunRaisedAfterFetch w event t bucket_name user_id parsed_data
                 e t0 Hreach Hout G).
      * exact (RunGenerated w event t bucket_name user_id parsed_data
                 resp t0 Hreach Hout G).
Qed.

(** C6: in every run that answers 200, the parsed record was fetched,
    and the body is the JSON encoding of [{questions, skills_used}] where
    [skills_used] is, element for element and in order, the sequence
    that [clean_skills] made of the record's skills; the run's one
    inference call was given the [", "]-join of that same sequence (with
    the record's projects), and [questions] is the post-processed answer
    of that call. *)
Theorem skills_used_round_trip (w : world) (event : pyval) (t t' : list call)
        (resp : response) :
  lambda_handler w event t = (inr resp, t') ->
  statusCode resp = 200%Z ->
  exists bucket_name user_id parsed_data raw_skills skills projects output,
    reaches_fetch w event bucket_name user_id
    /\ fetch_outcome w bucket_name user_id = inr parsed_data
    /\ py_get parsed_data (of_string "skills") (PList []) = inr raw_skills
    /\ py_clean_skills raw_skills = inr skills
    /\ py_get parsed_data (of_string "projects") (PStr []) = inr projects
    /\ chain_run w (py_join (of_string ", ") skills) projects = inr output
    /\ resp = success_response w (postprocess output) skills
    /\ body resp =
       json_dumps w
         (PDict [(of_string "questions", PList (map PStr (postprocess output)));
                 (of_string "skills_used", PList (map PStr skills))])
    /\ t' = t ++ [S3GetObject bucket_name (file_key w user_id);
                  ChainRun (py_join (of_string ", ") skills) projects].
Proof.
  intros Hrun H200.
  destruct (lambda_handler_handler_run w event t) as (resp0 & t0 & Hrun0 & R).
  rewrite Hrun in Hrun0. inversion Hrun0; subst resp0 t0. clear Hrun0.
  destruct R as [e He | raw_body body user_id H1 H2 H3 H4
                | bucket_name user_id e Hreach Hout
                | bucket_name user_id parsed_data e t0 Hreach Hout G
                | bucket_name user_id parsed_data resp0 t0 Hreach Hout G];
    try discriminate H200.
  inversion G as [ | raw H1 H2 | | skills projects output C Hanswer]; subst;
    try discriminate H200.
  destruct C as [raw_skills H1 H2 H3 H4 H5 H6 H7 H8].
  exists bucket_name, user_id, parsed_data, raw_skills, skills, projects, output.
  repeat (split; [first [assumption | reflexivity]|]).
  now rewrite <- app_assoc.
Qed.

Lemma skills_used_round_trip_witness :
  exists bucket_name user_id parsed_data raw_skills skills projects output,
    reaches_fetch world_answers demo_event bucket_name user_id
    /\ fetch_outcome world_answers bucket_name user_id = inr parsed_data
    /\ py_get parsed_data (of_string "skills") (PList []) = inr raw_skills
    /\ py_clean_skills raw_skills = inr skills
    /\ py_get parsed_data (of_string "projects") (PStr []) = inr projects
    /\ chain_run world_answers (py_join (of_string ", ") skills) projects
       = inr output
    /\ success_response world_answers
         [of_string "What is X?"; of_string "Explain Y"; of_string "Describe Z"]
         [of_string "x"; of_string "y"]
       = success_response world_answers (postprocess output) skills
    /\ body (success_response world_answers
               [of_string "What is X?"; of_string "Explain Y";
                of_string "Describe Z"]
               [of_string "x"; of_string "y"]) =
       json_dumps world_answers
         (PDict [(of_string "questions", PList (map PStr (postprocess output)));
                 (of_string "skills_used", PList (map PStr skills))])
    /\ [S3GetObject (of_string "resumes") demo_key;
        ChainRun (of_string "x, y") (PStr [])]
       = [] ++ [S3GetObject bucket_name (file_key world_answers user_id);
                ChainRun (py_join (of_string ", ") skills) projects].
Proof.
  apply (skills_used_round_trip world_answers demo_event []).
  - reflexivity.
  - reflexivity.
Defined.

Lemma starts_with_prefix (p v : pystr) : starts_with p (p ++ v) = true.
Proof.
  induction p as [|a p IH]; [reflexivity|]. cbn [app starts_with].
  now rewrite N.eqb_refl, IH.
Qed.

Lemma occurs_app (p u v : pystr) : occurs p (u ++ p ++ v) = true.
Proof.
  induction u as [|a u IH].
  - cbn [app]. destruct (p ++ v) eqn:E; cbn [occurs]; rewrite <- E;
      now rewrite starts_with_prefix.
  - cbn [app occurs]. rewrite IH. apply orb_true_r.
Qed.

Lemma generate_questions_raised (w : world) (parsed_data : pyval)
      (t t' : list call) (e : exn) :
  generate_questions w parsed_data t = (inl e, t') ->
  (raises_before_model w parsed_data e /\ t' = t)
  \/ exists skills projects,
       model_called w parsed_data skills projects
       /\ chain_run w (py_join (of_string ", ") skills) projects = inl e
       /\ t' = t ++ [ChainRun (py_join (of_string ", ") skills) projects].
Proof.
  intros H. pose proof (generate_questions_generation w parsed_data t) as G.
  rewrite H in G. cbn [fst snd] in G.
  inversion G as [e0 R | | skills projects e0 C Hrun | ]; subst.
  - now left.
  - right. exists skills, projects. auto.
Qed.

(** C7: when the parsed record is fetched, an exception of any call that
    follows the fetch is caught at the top level and answered with the
    500 whose error string is ["Internal server error: "] followed by
    the text of the exception, which therefore contains that text.  The
    calls are: reading and cleaning the skills, building the Bedrock
    client, the LLM, the prompt template and the chain (no inference
    call is then made), and the inference call itself.  There is no
    other way for what follows the fetch to raise. *)
Theorem exception_after_fetch_500 (w : world) (event : pyval)
        (bucket_name : pystr) (user_id parsed_data : pyval) (e : exn)
        (t : list call) :
  reaches_fetch w event bucket_name user_id ->
  fetch_outcome w bucket_name user_id = inr parsed_data ->
  (raises_before_model w parsed_data e ->
   lambda_handler w event t =
   (inr (error_response w 500
           (of_string "Internal server error: " ++ exn_str e)),
    t ++ [S3GetObject bucket_name (file_key w user_id)]))
  /\ (forall skills projects,
         model_called w parsed_data skills projects ->
         chain_run w (py_join (of_string ", ") skills) projects = inl e ->
         lambda_handler w event t =
         (inr (error_response w 500
                 (of_string "Internal server error: " ++ exn_str e)),
          t ++ [S3GetObject bucket_name (file_key w user_id);
                ChainRun (py_join (of_string ", ") skills) projects]))
  /\ occurs (exn_str e) (of_string "Internal server error: " ++ exn_str e)
     = true
  /\ (forall t',
         generate_questions w parsed_data
           (t ++ [S3GetObject bucket_name (file_key w user_id)]) = (inl e, t') ->
         raises_before_model w parsed_data e
         \/ exists skills projects,
              model_called w parsed_data skills projects
              /\ chain_run w (py_join (of_string ", ") skills) projects
                 = inl e).
Proof.
  intros Hreach Hout. split; [|split; [|split]].
  - intros R.
    rewrite lambda_handler_run,
      (handler_body_at_fetch w event bucket_name user_id t Hreach), Hout,
      (generate_questions_raises_early w parsed_data e _ R).
    reflexivity.
  - intros skills projects C Hrun.
    rewrite lambda_handler_run,
      (handler_body_at_fetch w event bucket_name user_id t Hreach), Hout,
      (generate_questions_model_called w parsed_data skills projects _ C),
      Hrun, <- app_assoc.
    reflexivity.
  - rewrite <- (app_nil_r (exn_str e)) at 2. apply occurs_app.
  - intros t' H.
    destruct (generate_questions_raised w parsed_data _ t' e H)
      as [[R _] | (skills & projects & C & Hrun & _)]; [now left|].
    right. exists skills, projects. auto.
Qed.

Lemma exception_after_fetch_500_witness :
  lambda_handler world_template_refused demo_event []
  = (inr (error_response world_template_refused 500
            (of_string "Internal server error: Invalid prompt schema")),
     [S3GetObject (of_string "resumes") demo_key])
  /\ lambda_handler world_model_down demo_event []
     = (inr (error_response world_model_down 500
               (of_string "Internal server error: Error raised by bedrock service")),
        [S3GetObject (of_string "resumes") demo_key;
         ChainRun (of_string "x, y") (PStr [])])
  /\ occurs (of_string "Error raised by bedrock service")
            (of_string "Internal server error: Error raised by bedrock service")
     = true.
Proof.
  split; [|split].
  - apply (proj1 (exception_after_fetch_500 world_template_refused demo_event
                    (of_string "resumes") (PStr (of_string "u1")) demo_record
                    TemplateRefused []
                    (ReachesFetch world_template_refused demo_event _ _
                       (PStr (json_text "{'userId': 'u1'}"))
                       (PDict [(of_string "userId", PStr (of_string "u1"))])
                       eq_refl eq_refl eq_refl eq_refl eq_refl eq_refl)
                    eq_refl)).
    apply (RaisedPromptTemplate world_template_refused demo_record
             TemplateRefused
             (PList [PStr (of_string "SKILLS: a: x, b: y")])
             [of_string "x"; of_string "y"]);
      try reflexivity.
    discriminate.
  - apply (proj1 (proj2 (exception_after_fetch_500 world_model_down demo_event
                    (of_string "resumes") (PStr (of_string "u1")) demo_record
                    ModelDown [] (demo_reaches_fetch _ _) eq_refl))
             [of_string "x"; of_string "y"] (PStr [])).
    + apply (ModelCalled world_model_down demo_record
               [of_string "x"; of_string "y"] (PStr [])
               (PList [PStr (of_string "SKILLS: a: x, b: y")]));
        try reflexivity.
      discriminate.
    + reflexivity.
  - apply (proj1 (proj2 (proj2 (exception_after_fetch_500 world_model_down
                    demo_event (of_string "resumes") (PStr (of_string "u1"))
                    demo_record ModelDown [] (demo_reaches_fetch _ _)
                    eq_refl)))).
Defined.

Lemma error_response_envelope (w : world) (status : Z) (msg : pystr) :
  In status [200; 400; 404; 500]%Z -> envelope_ok w (error_response w status msg).
Proof.
  intros H. split; [exact H|]. split; [eexists; reflexivity|].
  split; reflexivity.
Qed.

(** C8: on every event and whatever the outside world does, the handler
    returns a response (no exception leaves it) whose [statusCode] is an
    integer of the table, whose [body] is a [json.dumps] string and whose
    headers hold [Access-Control-Allow-Origin: *] and
    [Content-Type: application/json]. *)
Theorem lambda_handler_envelope (w : world) (event : pyval) (t : list call) :
  exists resp t',
    lambda_handler w event t = (inr resp, t') /\ envelope_ok w resp.
Proof.
  destruct (lambda_handler_handler_run w event t) as (resp & t' & Hrun & R).
  exists resp, t'. split; [exact Hrun|].
  inversion R; subst;
    try (apply error_response_envelope; simpl; tauto).
  match goal with G : generation _ _ _ _ _ |- _ => inversion G; subst end.
  - apply error_response_envelope; simpl; tauto.
  - split; [simpl; tauto|]. split; [eexists; reflexivity|]. split; reflexivity.
Qed.

(* ================================================================== *)
(** ** Further properties of [clean_skills] *)
(* ================================================================== *)

Lemma py_split_piece_no_sep (sep : char) (s q : pystr) :
  In q (py_split sep s) -> ~ In sep q.
Proof.
  revert q. induction s as [|c s IH]; simpl; intros q Hq.
  - destruct Hq as [<-|[]]. simpl. tauto.
  - destruct (N.eqb_spec c sep) as [->|Hne].
    + destruct Hq as [<-|Hq]; [simpl; tauto | now apply IH].
    + destruct (py_split sep s) as [|r rs].
      * destruct Hq as [<-|[]]. simpl. intros [E|[]]. congruence.
      * destruct Hq as [<-|Hq].
        -- simpl. intros [E|E]; [congruence|].
           exact (IH r (or_introl eq_refl) E).
        -- apply IH. now right.
Qed.

Lemma last_In_nonempty (l : list pystr) (d : pystr) :
  l <> [] -> In (last l d) l.
Proof.
  induction l as [|x l IH]; [congruence|]. intros _.
  destruct l as [|y l]; [now left|].
  right. apply IH. discriminate.
Qed.

Lemma last_segment_piece (piece : pystr) :
  In (last_segment piece) (py_split colon piece).
Proof. apply last_In_nonempty, py_split_nonempty. Qed.

Lemma cleaned_of_segments_of (raw : pystr) :
  cleaned_of raw = segments_of (py_replace skills_marker [] raw).
Proof. reflexivity. Qed.

Lemma segments_of_tokens (s : pystr) : Forall clean_token (segments_of s).
Proof.
  apply Forall_forall. intros q Hq. unfold segments_of in Hq.
  apply filter_In in Hq as [Hq Hne]. apply in_map_iff in Hq as (part & <- & Hpart).
  pose proof (last_segment_piece (py_strip part)) as Hseg.
  split; [now apply nonempty_true|]. split; [apply py_strip_idem|]. split.
  - intros H. apply py_strip_In in H.
    apply (py_split_In colon _ _ comma Hseg) in H. apply py_strip_In in H.
    exact (py_split_piece_no_sep comma s part Hpart H).
  - intros H. apply py_strip_In in H.
    exact (py_split_piece_no_sep colon _ _ Hseg H).
Qed.

Lemma cleaned_tokens (skills_list : list pystr) :
  Forall clean_token (clean_skills skills_list).
Proof.
  rewrite clean_skills_flat_map. apply Forall_forall. intros q Hq.
  apply in_flat_map in Hq as (raw & _ & Hq).
  rewrite cleaned_of_segments_of in Hq.
  exact (proj1 (Forall_forall _ _) (segments_of_tokens _) q Hq).
Qed.

(** Every cleaned skill is a non-empty, trimmed string that holds neither
    a comma nor a colon, whatever the raw entries are. *)
Theorem clean_skills_tokens (skills_list : list pystr) :
  Forall (fun q => q <> [] /\ py_strip q = q
                   /\ ~ In comma q /\ ~ In colon q)
         (clean_skills skills_list).
Proof. exact (cleaned_tokens skills_list). Qed.

(** Entries are cleaned one by one: cleaning a concatenation of two lists
    gives the concatenation of what each list cleans to. *)
Theorem clean_skills_app (l1 l2 : list pystr) :
  clean_skills (l1 ++ l2) = clean_skills l1 ++ clean_skills l2.
Proof. rewrite !clean_skills_flat_map. apply flat_map_app. Qed.

Lemma occurs_marker_colon (s : pystr) :
  occurs skills_marker s = true -> In colon s.
Proof.
  induction s as [|c s IH]; [discriminate|].
  cbn [occurs]. intros H. apply orb_true_iff in H as [H|H].
  - rewrite (starts_with_app _ _ H). apply in_or_app. left.
    cbv. tauto.
  - right. now apply IH.
Qed.

Lemma cleaned_of_no_colon (s : pystr) :
  ~ In colon s -> cleaned_of s = segments_of s.
Proof.
  intros H. rewrite cleaned_of_segments_of, py_replace_no_occurrence;
    [reflexivity|].
  apply not_true_is_false. intros E. exact (H (occurs_marker_colon s E)).
Qed.

Lemma segments_of_token (q : pystr) : clean_token q -> segments_of q = [q].
Proof.
  intros (Hne & Hstrip & Hcomma & Hcolon). unfold segments_of.
  rewrite (py_split_no_sep comma q Hcomma). cbn [map]. rewrite Hstrip.
  unfold last_segment. rewrite (py_split_no_sep colon q Hcolon). cbn [last].
  rewrite Hstrip. cbn [filter]. apply nonempty_true in Hne. now rewrite Hne.
Qed.

Lemma clean_skills_fixed (l : list pystr) :
  Forall clean_token l -> clean_skills l = l.
Proof.
  intros H. rewrite clean_skills_flat_map.
  induction H as [|q l Hq _ IH]; [reflexivity|].
  cbn [flat_map]. rewrite IH, cleaned_of_no_colon by apply Hq.
  now rewrite (segments_of_token q Hq).
Qed.

(** Cleaning is idempotent: a list that [clean_skills] produced passes
    through [clean_skills] unchanged. *)
Theorem clean_skills_idempotent (skills_list : list pystr) :
  clean_skills (clean_skills skills_list) = clean_skills skills_list.
Proof. apply clean_skills_fixed, cleaned_tokens. Qed.

Lemma segments_of_app (u v : pystr) :
  segments_of (u ++ comma :: v) = segments_of u ++ segments_of v.
Proof.
  unfold segments_of. now rewrite py_split_app, map_app, filter_app.
Qed.

Lemma segments_of_cons_space (s : pystr) :
  segments_of (space :: s) = segments_of s.
Proof.
  unfold segments_of. cbn [py_split].
  change (space =? comma)%N with false. cbv iota.
  pose proof (py_split_nonempty comma s) as Hne.
  destruct (py_split comma s) as [|p ps]; [congruence|].
  cbn [map]. now rewrite (py_strip_cons_space space p eq_refl).
Qed.

Lemma py_join_cons2 (sep x y : pystr) (l : list pystr) :
  py_join sep (x :: y :: l) = x ++ sep ++ py_join sep (y :: l).
Proof. reflexivity. Qed.

Lemma py_join_no_colon (l : list pystr) :
  Forall clean_token l -> ~ In colon (py_join (of_string ", ") l).
Proof.
  induction 1 as [|x l Hx Hl IH]; [simpl; tauto|].
  destruct l as [|y l]; [apply Hx|].
  rewrite py_join_cons2. intros H.
  apply in_app_or in H as [H|H]; [now apply Hx in H|].
  apply in_app_or in H as [H|H]; [|now apply IH in H].
  cbv in H. destruct H as [H|[H|[]]]; discriminate H.
Qed.

Lemma segments_of_join (l : list pystr) :
  Forall clean_token l -> segments_of (py_join (of_string ", ") l) = l.
Proof.
  induction 1 as [|x l Hx Hl IH]; [reflexivity|].
  destruct l as [|y l]; [exact (segments_of_token x Hx)|].
  rewrite py_join_cons2.
  change (of_string ", " ++ ?r) with (comma :: space :: r).
  rewrite segments_of_app, segments_of_cons_space, IH.
  now rewrite (segments_of_token x Hx).
Qed.

(** Round trip through the prompt: the [", "]-join of the cleaned skills,
    handed to [clean_skills] as one raw entry, cleans back to the same
    skills in the same order. *)
Theorem clean_skills_join_round_trip (skills_list : list pystr) :
  clean_skills [py_join (of_string ", ") (clean_skills skills_list)]
  = clean_skills skills_list.
Proof.
  pose proof (cleaned_tokens skills_list) as H.
  rewrite (clean_skills_flat_map [_]). cbn [flat_map]. rewrite app_nil_r.
  rewrite cleaned_of_no_colon by now apply py_join_no_colon.
  now apply segments_of_join.
Qed.

(** *** How many skills, and made of what *)

Lemma length_py_split (sep : char) (s : pystr) :
  List.length (py_split sep s) = S (count_occ N.eq_dec s sep).
Proof.
  induction s as [|c s IH]; [reflexivity|]. cbn [py_split count_occ].
  destruct (N.eqb_spec c sep) as [->|Hne].
  - destruct (N.eq_dec sep sep); [|congruence]. cbn [List.length]. now rewrite IH.
  - destruct (N.eq_dec c sep); [congruence|].
    destruct (py_split sep s); cbn [List.length] in *; lia.
Qed.

Lemma count_occ_replace_from (old : pystr) (skip : nat) (s : pystr) (c : char) :
  count_occ N.eq_dec (replace_from old [] skip s) c <= count_occ N.eq_dec s c.
Proof.
  revert skip. induction s as [|a s IH]; intros skip; [reflexivity|].
  cbn [replace_from].
  destruct skip as [|k].
  - destruct (starts_with old (a :: s)); cbn [app count_occ].
    + specialize (IH (List.length old - 1)). destruct (N.eq_dec a c); lia.
    + specialize (IH 0). destruct (N.eq_dec a c); lia.
  - specialize (IH k). cbn [count_occ]. destruct (N.eq_dec a c); lia.
Qed.

Lemma replace_from_In (old : pystr) (skip : nat) (s : pystr) (c : char) :
  In c (replace_from old [] skip s) -> In c s.
Proof.
  revert skip. induction s as [|a s IH]; intros skip; [tauto|].
  cbn [replace_from]. destruct skip as [|k].
  - destruct (starts_with old (a :: s)); cbn [app].
    + intros H. right. exact (IH _ H).
    + intros [->|H]; [now left | right; exact (IH _ H)].
  - intros H. right. exact (IH _ H).
Qed.

Lemma length_cleaned_of (raw : pystr) :
  List.length (cleaned_of raw) <= S (count_occ N.eq_dec raw comma).
Proof.
  unfold cleaned_of.
  etransitivity; [apply filter_length_le|].
  rewrite length_map, length_py_split.
  pose proof (count_occ_replace_from skills_marker 0 raw comma).
  unfold py_replace. lia.
Qed.

(** A bound on the output: at most one skill per raw entry plus one per
    comma in the raw entries. *)
Theorem clean_skills_length (skills_list : list pystr) :
  List.length (clean_skills skills_list)
  <= List.length skills_list + count_occ N.eq_dec (List.concat skills_list) comma.
Proof.
  rewrite clean_skills_flat_map.
  induction skills_list as [|raw l IH]; [reflexivity|].
  cbn [flat_map List.concat List.length]. rewrite length_app, count_occ_app.
  pose proof (length_cleaned_of raw). unfold char in *. lia.
Qed.

(** No character is made up: every code point of a cleaned skill occurs
    in one of the raw entries. *)
Theorem clean_skills_characters (skills_list : list pystr) (q : pystr)
        (c : char) :
  In q (clean_skills skills_list) -> In c q ->
  exists raw, In raw skills_list /\ In c raw.
Proof.
  rewrite clean_skills_flat_map. intros Hq Hc.
  apply in_flat_map in Hq as (raw & Hraw & Hq). exists raw. split; [exact Hraw|].
  unfold cleaned_of in Hq. apply filter_In in Hq as [Hq _].
  apply in_map_iff in Hq as (part & <- & Hpart).
  apply py_strip_In in Hc.
  apply (py_split_In colon _ _ c (last_segment_piece _)) in Hc.
  apply py_strip_In in Hc.
  apply (py_split_In comma _ _ c Hpart) in Hc.
  exact (replace_from_In _ _ _ _ Hc).
Qed.

Lemma clean_skills_characters_witness :
  exists raw,
    In raw [of_string "SKILLS: a: x, b: y"] /\ In 121%N raw.
Proof.
  apply (clean_skills_characters [of_string "SKILLS: a: x, b: y"]
           (of_string "y") 121%N).
  - right. left. reflexivity.
  - left. reflexivity.
Defined.

(* ================================================================== *)
(** ** [clean_skills] on values that are not lists of strings *)
(* ================================================================== *)

Lemma py_strip_singleton (c : char) :
  py_strip [c] = if py_isspace c then [] else [c].
Proof.
  unfold py_strip, py_lstrip, py_rstrip. cbn [drop_while].
  destruct (py_isspace c) eqn:E; [reflexivity|].
  cbn [rev app drop_while]. now rewrite E.
Qed.

Lemma cleaned_of_letter (c : char) :
  cleaned_of [c] = if letter_kept c then [[c]] else [].
Proof.
  unfold cleaned_of, py_replace, letter_kept.
  cbn [replace_from starts_with skills_marker]. rewrite andb_false_r.
  cbn [py_split]. destruct (N.eqb_spec c comma) as [->|Hcomma]; [reflexivity|].
  cbn [map]. rewrite py_strip_singleton.
  destruct (py_isspace c) eqn:Hsp; [reflexivity|].
  unfold last_segment. cbn [py_split].
  destruct (N.eqb_spec c colon) as [->|Hcolon]; [reflexivity|].
  cbn [last]. rewrite py_strip_singleton, Hsp. reflexivity.
Qed.

(** A string where a list is expected is iterated character by
    character: every character that is not whitespace, a comma or a
    colon becomes a one-letter skill, and nothing is raised. *)
Theorem py_clean_skills_of_str (s : pystr) :
  py_clean_skills (PStr s)
  = inr (map (fun c => [c]) (filter letter_kept s)).
Proof.
  cbn [py_clean_skills]. f_equal. rewrite clean_skills_flat_map.
  induction s as [|c s IH]; [reflexivity|].
  cbn [map flat_map filter]. rewrite IH, cleaned_of_letter.
  destruct (letter_kept c); reflexivity.
Qed.

Lemma as_strings_first_other (ss : list pystr) (v : pyval) (rest : list pyval) :
  (forall s, v <> PStr s) ->
  as_strings (map PStr ss ++ v :: rest)
  = inl (AttributeError v (of_string "replace")).
Proof.
  intros Hv. induction ss as [|s ss IH].
  - cbn [map app as_strings]. destruct v; try reflexivity.
    now destruct (Hv s).
  - cbn [map app as_strings]. now rewrite IH.
Qed.

(** A list of skills is accepted exactly when all its elements are
    strings: then it cleans as [clean_skills] does; otherwise the first
    element that is not a string raises an [AttributeError] on
    ['replace'], whatever follows it. *)
Theorem py_clean_skills_of_list (l : list pyval) :
  (forall ss, l = map PStr ss ->
              py_clean_skills (PList l) = inr (clean_skills ss))
  /\ (forall ss v rest,
         l = map PStr ss ++ v :: rest -> (forall s, v <> PStr s) ->
         py_clean_skills (PList l)
         = inl (AttributeError v (of_string "replace"))).
Proof.
  split.
  - intros ss ->. cbn [py_clean_skills]. now rewrite as_strings_map_PStr.
  - intros ss v rest -> Hv. cbn [py_clean_skills].
    now rewrite (as_strings_first_other ss v rest Hv).
Qed.

Lemma py_clean_skills_of_list_witness :
  py_clean_skills (PList [PStr (of_string "Go"); PInt 3; PNone])
  = inl (Exn (of_string "AttributeError")
             (of_string "'int' object has no attribute 'replace'")).
Proof.
  apply (proj2 (py_clean_skills_of_list
                  [PStr (of_string "Go"); PInt 3; PNone])
           [of_string "Go"] (PInt 3) [PNone]).
  - reflexivity.
  - discriminate.
Defined.

(* ================================================================== *)
(** ** Further paths of [lambda_handler] *)
(* ================================================================== *)

Lemma lambda_handler_at_fetch (w : world) (event : pyval) (bucket_name : pystr)
      (user_id parsed_data : pyval) (t : list call) :
  reaches_fetch w event bucket_name user_id ->
  fetch_outcome w bucket_name user_id = inr parsed_data ->
  lambda_handler w event t =
  match generate_questions w parsed_data
          (t ++ [S3GetObject bucket_name (file_key w user_id)]) with
  | (inl e, t') => (inr (internal_error w e), t')
  | (inr resp, t') => (inr resp, t')
  end.
Proof.
  intros Hreach Hout.
  now rewrite lambda_handler_run,
    (handler_body_at_fetch w event bucket_name user_id t Hreach), Hout.
Qed.

Lemma demo_with_reaches_fetch (text : pystr) (value : pyval)
      (stored : result (list Byte.byte)) (answer : result pystr) :
  pystr_eqb (json_text "{'userId': 'u1'}") text = false ->
  reaches_fetch (demo_world_with text value stored answer)
                demo_event (of_string "resumes") (PStr (of_string "u1")).
Proof.
  intros H.
  apply (ReachesFetch _ demo_event _ _
           (PStr (json_text "{'userId': 'u1'}"))
           (PDict [(of_string "userId", PStr (of_string "u1"))]));
    try reflexivity.
  cbn [py_json_loads json_loads demo_world_with]. now rewrite H.
Defined.

(** When the fetched record lists skills and one of them is not a string,
    the handler answers 500 with the [AttributeError] of the first such
    element; the storage read is the only service call made. *)
Theorem non_string_skill_500 (w : world) (event : pyval) (bucket_name : pystr)
        (user_id parsed_data : pyval) (ss : list pystr) (v : pyval)
        (rest : list pyval) (t : list call) :
  reaches_fetch w event bucket_name user_id ->
  fetch_outcome w bucket_name user_id = inr parsed_data ->
  py_get parsed_data (of_string "skills") (PList [])
  = inr (PList (map PStr ss ++ v :: rest)) ->
  (forall s, v <> PStr s) ->
  lambda_handler w event t =
  (inr (error_response w 500
          (of_string "Internal server error: '" ++ type_name v
             ++ of_string "' object has no attribute 'replace'")),
   t ++ [S3GetObject bucket_name (file_key w user_id)]).
Proof.
  intros Hreach Hout Hraw Hv.
  rewrite (lambda_handler_at_fetch w event bucket_name user_id parsed_data t
             Hreach Hout).
  unfold generate_questions, bind, lift. rewrite Hraw.
  cbn [py_clean_skills]. rewrite (as_strings_first_other ss v rest Hv).
  unfold internal_error, AttributeError, quoted. cbn [exn_str].
  now rewrite <- !app_assoc.
Qed.

Lemma non_string_skill_500_witness :
  lambda_handler world_number_skill demo_event []
  = (inr (error_response world_number_skill 500
            (of_string "Internal server error: 'int' object has no attribute 'replace'")),
     [S3GetObject (of_string "resumes") demo_key]).
Proof.
  apply (non_string_skill_500 world_number_skill demo_event
           (of_string "resumes") (PStr (of_string "u1"))
           (PDict [(of_string "skills",
                    PList [PStr (of_string "Go"); PInt 3])])
           [of_string "Go"] (PInt 3) [] []).
  - apply demo_with_reaches_fetch. reflexivity.
  - reflexivity.
  - reflexivity.
  - discriminate.
Defined.

(** A fetched record with no ['skills'] key is read as having the empty
    list of skills: the handler answers 400 with
    ["No skills found in parsed data"], and the storage read is the only
    service call made. *)
Theorem missing_skills_key_400 (w : world) (event : pyval) (bucket_name : pystr)
        (user_id : pyval) (d : list (pystr * pyval)) (t : list call) :
  reaches_fetch w event bucket_name user_id ->
  fetch_outcome w bucket_name user_id = inr (PDict d) ->
  assoc (of_string "skills") d = None ->
  lambda_handler w event t =
  (inr (error_response w 400 (of_string "No skills found in parsed data")),
   t ++ [S3GetObject bucket_name (file_key w user_id)]).
Proof.
  intros Hreach Hout Hkey.
  rewrite (lambda_handler_at_fetch w event bucket_name user_id (PDict d) t
             Hreach Hout).
  unfold generate_questions, bind, lift, ret. cbn [py_get]. now rewrite Hkey.
Qed.

Lemma missing_skills_key_400_witness :
  lambda_handler world_empty_record demo_event []
  = (inr (error_response world_empty_record 400
            (of_string "No skills found in parsed data")),
     [S3GetObject (of_string "resumes") demo_key]).
Proof.
  apply (missing_skills_key_400 world_empty_record demo_event
           (of_string "resumes") (PStr (of_string "u1")) [] []).
  - apply demo_reaches_fetch.
  - reflexivity.
  - reflexivity.
Defined.

(** A stored object that parses as JSON but is not an object (a list, a
    string, a number, [null]) is not a fetch failure: the handler answers
    500, not 404, with the [AttributeError] of the missing ['get'], and
    the storage read is the only service call made. *)
Theorem record_not_object_500 (w : world) (event : pyval) (bucket_name : pystr)
        (user_id parsed_data : pyval) (t : list call) :
  reaches_fetch w event bucket_name user_id ->
  fetch_outcome w bucket_name user_id = inr parsed_data ->
  (forall d, parsed_data <> PDict d) ->
  lambda_handler w event t =
  (inr (error_response w 500
          (of_string "Internal server error: '" ++ type_name parsed_data
             ++ of_string "' object has no attribute 'get'")),
   t ++ [S3GetObject bucket_name (file_key w user_id)]).
Proof.
  intros Hreach Hout Hnot.
  rewrite (lambda_handler_at_fetch w event bucket_name user_id parsed_data t
             Hreach Hout).
  unfold generate_questions, bind, lift.
  destruct parsed_data; try (now destruct (Hnot d));
    cbn [py_get]; unfold internal_error, AttributeError, quoted;
    cbn [exn_str]; now rewrite <- !app_assoc.
Qed.

Lemma record_not_object_500_witness :
  lambda_handler world_list_record demo_event []
  = (inr (error_response world_list_record 500
            (of_string "Internal server error: 'list' object has no attribute 'get'")),
     [S3GetObject (of_string "resumes") demo_key]).
Proof.
  apply (record_not_object_500 world_list_record demo_event
           (of_string "resumes") (PStr (of_string "u1")) (PList []) []).
  - apply demo_with_reaches_fetch. reflexivity.
  - reflexivity.
  - discriminate.
Defined.

(** An event that is not a mapping, and a request body that parses as
    JSON but is not an object, both end in the 500 answer with the
    [AttributeError] of the missing ['get'], without any service call. *)
Theorem request_not_object_500 (w : world) (event : pyval) (t : list call) :
  ((forall d, event <> PDict d) ->
   lambda_handler w event t =
   (inr (error_response w 500
           (of_string "Internal server error: '" ++ type_name event
              ++ of_string "' object has no attribute 'get'")), t))
  /\ (forall raw_body body,
         py_get event (of_string "body") (PStr (of_string "{}")) = inr raw_body ->
         py_json_loads w raw_body = inr body ->
         (forall d, body <> PDict d) ->
         lambda_handler w event t =
         (inr (error_response w 500
                 (of_string "Internal server error: '" ++ type_name body
                    ++ of_string "' object has no attribute 'get'")), t)).
Proof.
  split.
  - intros Hnot. rewrite lambda_handler_run. unfold handler_body, bind, lift.
    destruct event; try (now destruct (Hnot d));
      cbn [py_get]; unfold error_response, AttributeError, quoted;
      cbn [exn_str]; now rewrite <- !app_assoc.
  - intros raw_body body Hraw Hbody Hnot.
    rewrite lambda_handler_run. unfold handler_body, bind, lift.
    rewrite Hraw, Hbody.
    destruct body; try (now destruct (Hnot d));
      cbn [py_get]; unfold error_response, AttributeError, quoted;
      cbn [exn_str]; now rewrite <- !app_assoc.
Qed.

Lemma request_not_object_500_witness :
  lambda_handler world_list_record PNone []
  = (inr (error_response world_list_record 500
            (of_string "Internal server error: 'NoneType' object has no attribute 'get'")),
     [])
  /\ lambda_handler world_list_record
       (PDict [(of_string "body", PStr (json_text "[]"))]) []
     = (inr (error_response world_list_record 500
               (of_string "Internal server error: 'list' object has no attribute 'get'")),
        []).
Proof.
  split.
  - apply (proj1 (request_not_object_500 world_list_record PNone [])).
    discriminate.
  - apply (proj2 (request_not_object_500 world_list_record
                    (PDict [(of_string "body", PStr (json_text "[]"))]) [])
             (PStr (json_text "[]")) (PList [])).
    + reflexivity.
    + reflexivity.
    + discriminate.
Defined.

(** Any [userId] that Python counts as false (not only a missing one or
    the empty string, also [0], [false], [null], an empty list or
    object) gets the 400 ["userId is required"], without any service
    call. *)
Theorem falsy_user_id_400 (w : world) (event raw_body body user_id : pyval)
        (t : list call) :
  py_get event (of_string "body") (PStr (of_string "{}")) = inr raw_body ->
  py_json_loads w raw_body = inr body ->
  py_get body (of_string "userId") PNone = inr user_id ->
  truthy user_id = false ->
  lambda_handler w event t =
  (inr (error_response w 400 (of_string "userId is required")), t).
Proof.
  intros Hraw Hbody Huid Hfalse.
  rewrite lambda_handler_run. unfold handler_body, bind, lift, ret.
  now rewrite Hraw, Hbody, Huid, Hfalse.
Qed.

Lemma falsy_user_id_400_witness :
  lambda_handler world_zero_user
    (PDict [(of_string "body", PStr (json_text "{'userId': 0}"))]) []
  = (inr (error_response world_zero_user 400 (of_string "userId is required")),
     []).
Proof.
  apply (falsy_user_id_400 world_zero_user
           (PDict [(of_string "body", PStr (json_text "{'userId': 0}"))])
           (PStr (json_text "{'userId': 0}"))
           (PDict [(of_string "userId", PInt 0)]) (PInt 0) []);
    reflexivity.
Defined.

(* ================================================================== *)
(** ** The service calls of a run *)
(* ================================================================== *)

(** A run makes no service call, or one storage read, or one storage
    read followed by one inference call, in that order and never more.
    The read targets the bucket named by [BUCKET_NAME] and the key
    [generated/{userId}_parsed.json] of the request's [userId]; the
    inference call is made on a fetched record only, and carries the
    [", "]-join of the record's cleaned skills, which are not empty, and
    the record's projects. *)
Theorem service_calls_shape (w : world) (event : pyval) (t : list call) :
  snd (lambda_handler w event t) = t
  \/ exists bucket_name user_id,
       environ w (of_string "BUCKET_NAME") = Some bucket_name
       /\ (exists raw_body body,
              py_get event (of_string "body") (PStr (of_string "{}"))
              = inr raw_body
              /\ py_json_loads w raw_body = inr body
              /\ py_get body (of_string "userId") PNone = inr user_id)
       /\ (snd (lambda_handler w event t)
           = t ++ [S3GetObject bucket_name
                     (of_string "generated/" ++ py_str w user_id
                        ++ of_string "_parsed.json")]
           \/ exists parsed_data raw_skills skills projects,
                fetch_outcome w bucket_name user_id = inr parsed_data
                /\ py_get parsed_data (of_string "skills") (PList [])
                   = inr raw_skills
                /\ py_clean_skills raw_skills = inr skills
                /\ skills <> []
                /\ py_get parsed_data (of_string "projects") (PStr [])
                   = inr projects
                /\ snd (lambda_handler w event t)
                   = t ++ [S3GetObject bucket_name
                             (of_string "generated/" ++ py_str w user_id
                                ++ of_string "_parsed.json");
                           ChainRun (py_join (of_string ", ") skills) projects]).
Proof.
  destruct (lambda_handler_handler_run w event t) as (resp & t' & Hrun & R).
  rewrite Hrun. cbn [snd].
  assert (Hreach : forall bucket_name user_id,
             reaches_fetch w event bucket_name user_id ->
             environ w (of_string "BUCKET_NAME") = Some bucket_name
             /\ (exists raw_body body,
                    py_get event (of_string "body") (PStr (of_string "{}"))
                    = inr raw_body
                    /\ py_json_loads w raw_body = inr body
                    /\ py_get body (of_string "userId") PNone = inr user_id)).
  { intros b u [raw_body body H1 H2 H3 _ _ H6]. split; [exact H6|].
    exists raw_body, body. auto. }
  assert (Hgen : forall bucket_name user_id parsed_data r,
             fetch_outcome w bucket_name user_id = inr parsed_data ->
             generation w parsed_data
               (t ++ [S3GetObject bucket_name (file_key w user_id)]) r t' ->
             t' = t ++ [S3GetObject bucket_name (file_key w user_id)]
             \/ exists parsed_data raw_skills skills projects,
                  fetch_outcome w bucket_name user_id = inr parsed_data
                  /\ py_get parsed_data (of_string "skills") (PList [])
                     = inr raw_skills
                  /\ py_clean_skills raw_skills = inr skills
                  /\ skills <> []
                  /\ py_get parsed_data (of_string "projects") (PStr [])
                     = inr projects
                  /\ t' = t ++ [S3GetObject bucket_name (file_key w user_id);
                                ChainRun (py_join (of_string ", ") skills)
                                         projects]).
  { intros b u pd r Hout G.
    inversion G as [e0 R0 | raw H1 H2 | skills projects e0 C Hrun0
                   | skills projects output C Hrun0]; subst; [now left | now left | |];
      right; destruct C as [raw_skills H1 H2 H3 _ _ H6 _ _];
      exists pd, raw_skills, skills, projects;
      repeat (split; [assumption|]); now rewrite <- app_assoc. }
  destruct R as [e He | raw_body body user_id H1 H2 H3 H4
                | bucket_name user_id e Hr Hout
                | bucket_name user_id parsed_data e t0 Hr Hout G
                | bucket_name user_id parsed_data resp0 t0 Hr Hout G];
    [now left | now left | | |]; right; exists bucket_name, user_id;
    destruct (Hreach _ _ Hr) as [He Hu];
    (split; [exact He|]); (split; [exact Hu|]).
  - now left.
  - exact (Hgen bucket_name user_id parsed_data (inl e) Hout G).
  - exact (Hgen bucket_name user_id parsed_data (inr resp0) Hout G).
Qed.

(** The error statuses tell their cause.  A 404 is answered only when the
    storage fetch was attempted and failed, with that failure's text.  A
    400 is answered only with ["userId is required"], before any service
    call, when the request body parsed and its [userId] counts as false;
    or with ["No skills found in parsed data"], after the storage read
    and nothing else, when the record was fetched and its skills cleaned
    to the empty sequence. *)
Theorem error_status_cause (w : world) (event : pyval) (t t' : list call)
        (resp : response) :
  lambda_handler w event t = (inr resp, t') ->
  (statusCode resp = 404%Z ->
   exists bucket_name user_id e,
     reaches_fetch w event bucket_name user_id
     /\ fetch_outcome w bucket_name user_id = inl e
     /\ resp = error_response w 404
                 (of_string "Failed to retrieve parsed data: " ++ exn_str e)
     /\ t' = t ++ [S3GetObject bucket_name (file_key w user_id)])
  /\ (statusCode resp = 400%Z ->
      (resp = error_response w 400 (of_string "userId is required")
       /\ t' = t
       /\ exists raw_body body user_id,
            py_get event (of_string "body") (PStr (of_string "{}"))
            = inr raw_body
            /\ py_json_loads w raw_body = inr body
            /\ py_get body (of_string "userId") PNone = inr user_id
            /\ truthy user_id = false)
      \/ (resp = error_response w 400
                   (of_string "No skills found in parsed data")
          /\ exists bucket_name user_id parsed_data raw_skills,
               reaches_fetch w event bucket_name user_id
               /\ fetch_outcome w bucket_name user_id = inr parsed_data
               /\ py_get parsed_data (of_string "skills") (PList [])
                  = inr raw_skills
               /\ py_clean_skills raw_skills = inr []
               /\ t' = t ++ [S3GetObject bucket_name (file_key w user_id)])).
Proof.
  intros Hrun.
  destruct (lambda_handler_handler_run w event t) as (resp0 & t0 & Hrun0 & R).
  rewrite Hrun in Hrun0. inversion Hrun0; subst resp0 t0. clear Hrun0.
  split; intros Hstatus.
  - destruct R as [e He | raw_body body user_id H1 H2 H3 H4
                  | bucket_name user_id e Hr Hout
                  | bucket_name user_id parsed_data e t0 Hr Hout G
                  | bucket_name user_id parsed_data resp0 t0 Hr Hout G];
      try discriminate Hstatus.
    + exists bucket_name, user_id, e. auto.
    + inversion G; subst; discriminate Hstatus.
  - destruct R as [e He | raw_body body user_id H1 H2 H3 H4
                  | bucket_name user_id e Hr Hout
                  | bucket_name user_id parsed_data e t0 Hr Hout G
                  | bucket_name user_id parsed_data resp0 t0 Hr Hout G];
      try discriminate Hstatus.
    + left. split; [reflexivity|]. split; [reflexivity|].
      exists raw_body, body, user_id. auto.
    + inversion G as [ | raw H1 H2 | | ]; subst; try discriminate Hstatus.
      right. split; [reflexivity|].
      exists bucket_name, user_id, parsed_data, raw.
      repeat (split; [assumption|]). reflexivity.
Qed.

Lemma error_status_cause_witness :
  (exists bucket_name user_id e,
      reaches_fetch world_missing_record demo_event bucket_name user_id
      /\ fetch_outcome world_missing_record bucket_name user_id = inl e
      /\ error_response world_missing_record 404
           (of_string "Failed to retrieve parsed data: The specified key does not exist.")
         = error_response world_missing_record 404
             (of_string "Failed to retrieve parsed data: " ++ exn_str e)
      /\ [S3GetObject (of_string "resumes") demo_key]
         = [] ++ [S3GetObject bucket_name
                    (file_key world_missing_record user_id)])
  /\ ((error_response world_zero_user 400 (of_string "userId is required")
       = error_response world_zero_user 400 (of_string "userId is required")
       /\ @nil call = []
       /\ exists raw_body body user_id,
            py_get (PDict [(of_string "body",
                            PStr (json_text "{'userId': 0}"))])
                   (of_string "body") (PStr (of_string "{}"))
            = inr raw_body
            /\ py_json_loads world_zero_user raw_body = inr body
            /\ py_get body (of_string "userId") PNone = inr user_id
            /\ truthy user_id = false)
      \/ (error_response world_zero_user 400 (of_string "userId is required")
          = error_response world_zero_user 400
              (of_string "No skills found in parsed data")
          /\ exists bucket_name user_id parsed_data raw_skills,
               reaches_fetch world_zero_user
                 (PDict [(of_string "body",
                          PStr (json_text "{'userId': 0}"))])
                 bucket_name user_id
               /\ fetch_outcome world_zero_user bucket_name user_id
                  = inr parsed_data
               /\ py_get parsed_data (of_string "skills") (PList [])
                  = inr raw_skills
               /\ py_clean_skills raw_skills = inr []
               /\ @nil call
                  = [] ++ [S3GetObject bucket_name
                             (file_key world_zero_user user_id)])).
Proof.
  split.
  - apply (proj1 (error_status_cause world_missing_record demo_event []
                    [S3GetObject (of_string "resumes") demo_key]
                    (error_response world_missing_record 404
                       (of_string "Failed to retrieve parsed data: The specified key does not exist."))
                    eq_refl)).
    reflexivity.
  - apply (proj2 (error_status_cause world_zero_user
                    (PDict [(of_string "body",
                             PStr (json_text "{'userId': 0}"))])
                    [] []
                    (error_response world_zero_user 400
                       (of_string "userId is required"))
                    eq_refl)).
    reflexivity.
Defined.

(** What the model is given: in a run on a fetched record, the inference
    call carries the [", "]-join of the record's cleaned skills and the
    record's ['projects'] value as it is, or the empty string when the
    record has none. *)
Theorem model_inputs (w : world) (event : pyval) (bucket_name : pystr)
        (user_id : pyval) (d : list (pystr * pyval)) (t : list call)
        (skills_str : pystr) (projects : pyval) :
  reaches_fetch w event bucket_name user_id ->
  fetch_outcome w bucket_name user_id = inr (PDict d) ->
  In (ChainRun skills_str projects) (snd (lambda_handler w event t)) ->
  In (ChainRun skills_str projects) t
  \/ (projects = field d (of_string "projects") (PStr [])
      /\ exists skills,
           py_clean_skills (field d (of_string "skills") (PList []))
           = inr skills
           /\ skills <> []
           /\ skills_str = py_join (of_string ", ") skills).
Proof.
  intros Hreach Hout.
  rewrite (lambda_handler_at_fetch w event bucket_name user_id (PDict d) t
             Hreach Hout).
  unfold generate_questions, bind, lift, ret, invoke. cbn [py_get].
  fold (field d (of_string "skills") (PList [])).
  fold (field d (of_string "projects") (PStr [])).
  assert (Hold : forall r : result response,
             In (ChainRun skills_str projects)
                (snd (r, t ++ [S3GetObject bucket_name (file_key w user_id)])) ->
             In (ChainRun skills_str projects) t
             \/ (projects = field d (of_string "projects") (PStr [])
                 /\ exists skills,
                      py_clean_skills (field d (of_string "skills") (PList []))
                      = inr skills
                      /\ skills <> []
                      /\ skills_str = py_join (of_string ", ") skills)).
  { intros r H. cbn [snd] in H.
    apply in_app_or in H as [H|[H|[]]]; [now left | discriminate H]. }
  destruct (py_clean_skills (field d (of_string "skills") (PList [])))
    as [e|[|skill skills]] eqn:Hclean; try apply Hold.
  destruct (boto3_client w (of_string "bedrock-runtime")
                         (Some (of_string "ap-south-1"))) as [e|[]];
    [apply Hold|].
  destruct (Bedrock w model_id) as [e|[]]; [apply Hold|].
  destruct (PromptTemplate w [of_string "skills"; of_string "projects"]
                           prompt_template) as [e|[]]; [apply Hold|].
  destruct (LLMChain w) as [e|[]]; [apply Hold|].
  assert (Hnew : forall r : result response,
             In (ChainRun skills_str projects)
                (snd (r, (t ++ [S3GetObject bucket_name (file_key w user_id)])
                         ++ [ChainRun (py_join (of_string ", ") (skill :: skills))
                               (field d (of_string "projects") (PStr []))])) ->
             In (ChainRun skills_str projects) t
             \/ (projects = field d (of_string "projects") (PStr [])
                 /\ exists skills0,
                      @inr exn (list pystr) (skill :: skills) = inr skills0
                      /\ skills0 <> []
                      /\ skills_str = py_join (of_string ", ") skills0)).
  { intros r H. cbn [snd] in H.
    apply in_app_or in H as [H|[H|[]]].
    - apply in_app_or in H as [H|[H|[]]]; [now left | discriminate H].
    - inversion H; subst. right. split; [reflexivity|].
      exists (skill :: skills). split; [reflexivity|]. split; [discriminate|].
      reflexivity. }
  destruct (chain_run w (py_join (of_string ", ") (skill :: skills))
                      (field d (of_string "projects") (PStr [])));
    apply Hnew.
Qed.

Lemma model_inputs_witness :
  In (ChainRun (of_string "Go") (PStr (of_string "a compiler"))) []
  \/ (PStr (of_string "a compiler")
      = field [(of_string "skills", PList [PStr (of_string "Go")]);
               (of_string "projects", PStr (of_string "a compiler"))]
              (of_string "projects") (PStr [])
      /\ exists skills,
           py_clean_skills
             (field [(of_string "skills", PList [PStr (of_string "Go")]);
                     (of_string "projects", PStr (of_string "a compiler"))]
                    (of_string "skills") (PList []))
           = inr skills
           /\ skills <> []
           /\ of_string "Go" = py_join (of_string ", ") skills).
Proof.
  apply (model_inputs world_projects demo_event (of_string "resumes")
           (PStr (of_string "u1"))).
  - apply demo_with_reaches_fetch. reflexivity.
  - reflexivity.
  - right. left. reflexivity.
Defined.

(** The way to a 200: when the record is fetched, its skills clean to a
    non-empty list, the clients, the prompt and the chain are built and
    the model answers, the handler returns 200 with the post-processed
    answer as [questions] and the cleaned skills as [skills_used], after
    exactly one storage read and one inference call. *)
Theorem model_answer_200 (w : world) (event : pyval) (bucket_name : pystr)
        (user_id : pyval) (d : list (pystr * pyval)) (skills : list pystr)
        (output : pystr) (t : list call) :
  reaches_fetch w event bucket_name user_id ->
  fetch_outcome w bucket_name user_id = inr (PDict d) ->
  py_clean_skills (field d (of_string "skills") (PList [])) = inr skills ->
  skills <> [] ->
  boto3_client w (of_string "bedrock-runtime") (Some (of_string "ap-south-1"))
  = inr tt ->
  Bedrock w model_id = inr tt ->
  PromptTemplate w [of_string "skills"; of_string "projects"] prompt_template
  = inr tt ->
  LLMChain w = inr tt ->
  chain_run w (py_join (of_string ", ") skills)
            (field d (of_string "projects") (PStr [])) = inr output ->
  lambda_handler w event t =
  (inr (success_response w (postprocess output) skills),
   t ++ [S3GetObject bucket_name (file_key w user_id);
         ChainRun (py_join (of_string ", ") skills)
                  (field d (of_string "projects") (PStr []))]).
Proof.
  intros Hreach Hout Hclean Hne Hclient Hllm Hprompt Hchain Hrun.
  rewrite (lambda_handler_at_fetch w event bucket_name user_id (PDict d) t
             Hreach Hout).
  unfold generate_questions, bind, lift, ret, invoke. cbn [py_get].
  fold (field d (of_string "skills") (PList [])).
  fold (field d (of_string "projects") (PStr [])).
  rewrite Hclean. destruct skills as [|skill skills]; [congruence|].
  rewrite Hclient, Hllm, Hprompt, Hchain, Hrun, <- app_assoc. reflexivity.
Qed.

Lemma model_answer_200_witness :
  lambda_handler world_projects demo_event []
  = (inr (success_response world_projects
            [of_string "What is X?"; of_string "Explain Y"; of_string "Describe Z"]
            [of_string "Go"]),
     [S3GetObject (of_string "resumes") demo_key;
      ChainRun (of_string "Go") (PStr (of_string "a compiler"))]).
Proof.
  apply (model_answer_200 world_projects demo_event (of_string "resumes")
           (PStr (of_string "u1"))
           [(of_string "skills", PList [PStr (of_string "Go")]);
            (of_string "projects", PStr (of_string "a compiler"))]
           [of_string "Go"] example_output []).
  - apply demo_with_reaches_fetch. reflexivity.
  - reflexivity.
  - reflexivity.
  - discriminate.
  - reflexivity.
  - reflexivity.
  - reflexivity.
  - reflexivity.
  - reflexivity.
Defined.

(* ================================================================== *)
(** ** Further properties of the post-processing *)
(* ================================================================== *)

Lemma py_rstrip_drop_while (p : char -> bool) (s : pystr) :
  py_rstrip s = s -> py_rstrip (drop_while p s) = drop_while p s.
Proof.
  induction s as [|c s IH]; [auto|]. intros H. cbn [drop_while].
  destruct (p c); [|exact H]. apply IH.
  rewrite py_rstrip_cons in H.
  destruct (nonempty (py_rstrip s)) eqn:Hne.
  - injection H as H. exact H.
  - destruct (py_isspace c); [discriminate H|].
    injection H as <-. reflexivity.
Qed.

Lemma py_rstrip_strip (s : pystr) : py_rstrip (py_strip s) = py_strip s.
Proof. unfold py_strip. apply py_rstrip_idem. Qed.

(** Every question is a single line (no newline in it), has no trailing
    whitespace, and does not begin with a character of the [lstrip]
    argument (a digit, ['.'], [')'], ['-'], a space or one of its three
    other code points). *)
Theorem postprocess_questions (text : pystr) :
  Forall (fun q =>
            ~ In newline q
            /\ py_rstrip q = q
            /\ match q with
               | [] => True
               | c :: _ => existsb (N.eqb c) marker_chars = false
               end)
         (postprocess text).
Proof.
  rewrite postprocess_trimmed_lines. apply Forall_forall. intros q Hq.
  apply in_map_iff in Hq as (line & <- & Hline).
  unfold trimmed_lines in Hline.
  apply in_map_iff in Hline as (raw & <- & Hraw).
  apply filter_In in Hraw as [Hraw _].
  split; [|split].
  - intros H. apply drop_while_In in H. apply py_strip_In in H.
    exact (py_split_piece_no_sep newline text raw Hraw H).
  - apply py_rstrip_drop_while, py_rstrip_strip.
  - unfold py_lstrip_chars.
    destruct (drop_while (fun c => existsb (N.eqb c) marker_chars)
                         (py_strip raw)) as [|c r] eqn:E; [exact I|].
    exact (drop_while_head _ _ _ _ E).
Qed.

Lemma trimmed_lines_app (u v : pystr) :
  trimmed_lines (u ++ newline :: v) = trimmed_lines u ++ trimmed_lines v.
Proof.
  unfold trimmed_lines. now rewrite py_split_app, trimmed_lines_of_app.
Qed.

(** Lines are processed one by one: the questions of two texts put
    together with a newline are the questions of the first followed by
    the questions of the second. *)
Theorem postprocess_app (u v : pystr) :
  postprocess (u ++ newline :: v) = postprocess u ++ postprocess v.
Proof.
  rewrite !postprocess_trimmed_lines, trimmed_lines_app. apply map_app.
Qed.

(** Nothing is cut or padded: there are as many questions as the model
    output has non-blank lines, the trimming of the whole output
    notwithstanding. *)
Theorem postprocess_count (text : pystr) :
  List.length (postprocess text)
  = List.length (filter (fun q => nonempty (py_strip q))
                        (py_split newline text)).
Proof.
  rewrite postprocess_trimmed_lines. unfold trimmed_lines.
  now rewrite !length_map.
Qed.

Lemma drop_while_all (p : char -> bool) (s : pystr) :
  (forall c, In c s -> p c = true) -> drop_while p s = [].
Proof.
  induction s as [|a s IH]; simpl; intros H; [reflexivity|].
  rewrite (H a (or_introl eq_refl)). apply IH. intros c Hc. apply H. now right.
Qed.

Lemma all_space_py_strip (s : pystr) :
  (forall c, In c s -> py_isspace c = true) -> py_strip s = [].
Proof.
  intros H. unfold py_strip, py_lstrip. now rewrite drop_while_all.
Qed.

Lemma py_split_cover (sep : char) (s : pystr) (c : char) :
  In c s -> c = sep \/ exists q, In q (py_split sep s) /\ In c q.
Proof.
  induction s as [|a s IH]; [intros []|]. cbn [py_split].
  pose proof (py_split_nonempty sep s) as Hne.
  intros [<-|Hc].
  - destruct (N.eqb_spec a sep) as [->|Hneq]; [now left | right].
    destruct (py_split sep s) as [|p ps]; [congruence|].
    exists (a :: p). split; now left.
  - destruct (IH Hc) as [->|(q & Hq & Hcq)]; [now left | right].
    destruct (a =? sep)%N; [exists q; split; [now right | exact Hcq]|].
    destruct (py_split sep s) as [|p ps]; [congruence|].
    destruct Hq as [<-|Hq].
    + exists (a :: p). split; [now left | now right].
    + exists q. split; [now right | exact Hcq].
Qed.

(** The questions list is empty exactly when the model output is blank
    (empty or whitespace only). *)
Theorem postprocess_nil_iff (text : pystr) :
  postprocess text = [] <-> py_strip text = [].
Proof.
  split.
  - rewrite postprocess_trimmed_lines. unfold trimmed_lines. intros H.
    apply map_eq_nil in H. apply map_eq_nil in H.
    apply all_space_py_strip. intros c Hc.
    destruct (py_split_cover newline text c Hc) as [->|(q & Hq & Hcq)];
      [reflexivity|].
    destruct (nonempty (py_strip q)) eqn:Hne.
    + assert (Hin : In q (filter (fun q => nonempty (py_strip q))
                                 (py_split newline text)))
        by (apply filter_In; auto).
      rewrite H in Hin. destruct Hin.
    + apply (py_strip_nil_all_space q); [now apply nonempty_false | exact Hcq].
  - intros H. unfold postprocess. now rewrite H.
Qed.

(* ================================================================== *)
(** ** Executable checks *)
(* ================================================================== *)

Example py_split_empty : py_split comma [] = [[]].
Proof. reflexivity. Qed.

Example py_split_adjacent :
  py_split comma (of_string "a,,b,") = [of_string "a"; []; of_string "b"; []].
Proof. reflexivity. Qed.

Example py_replace_every_occurrence :
  py_replace skills_marker [] (of_string "SKILLS:aSKILLS:SKILLS:b")
  = of_string "ab".
Proof. reflexivity. Qed.

Example py_replace_rescans_nothing :
  py_replace skills_marker [] (of_string "SKISKILLS:LLS:") = of_string "SKILLS:".
Proof. reflexivity. Qed.

Example py_strip_unicode_space :
  py_strip (160%N :: 9%N :: of_string " a b " ++ [8195%N]) = of_string "a b".
Proof. reflexivity. Qed.

Example clean_skills_ex1 :
  clean_skills [of_string "SKILLS: a: x, b: y"] = [of_string "x"; of_string "y"].
Proof. reflexivity. Qed.

Example clean_skills_ex2 :
  clean_skills [of_string "Languages: Python, Java"; of_string " , :"; of_string "Go"]
  = [of_string "Python"; of_string "Java"; of_string "Go"].
Proof. reflexivity. Qed.

Example clean_skills_keeps_duplicates :
  clean_skills [of_string "Go, Go"; of_string "Go"]
  = [of_string "Go"; of_string "Go"; of_string "Go"].
Proof. reflexivity. Qed.

Example py_clean_skills_of_a_string :
  py_clean_skills (PStr (of_string "a, b"))
  = inr [of_string "a"; of_string "b"].
Proof. reflexivity. Qed.

Example py_clean_skills_of_None :
  py_clean_skills PNone
  = inl (Exn (of_string "TypeError")
             (of_string "'NoneType' object is not iterable")).
Proof. reflexivity. Qed.

Example postprocess_ex1 :
  postprocess example_output
  = [of_string "What is X?"; of_string "Explain Y"; of_string "Describe Z"].
Proof. reflexivity. Qed.

Example lambda_handler_answers :
  lambda_handler world_answers demo_event []
  = (inr (success_response world_answers
            [of_string "What is X?"; of_string "Explain Y"; of_string "Describe Z"]
            [of_string "x"; of_string "y"]),
     [S3GetObject (of_string "resumes") demo_key;
      ChainRun (of_string "x, y") (PStr [])]).
Proof. reflexivity. Qed.
